(** * The credential-issuance page (src/pages/CredentialUpload.jsx)

    A shallow embedding of the two event handlers of the [CredentialUpload]
    component, [handleFileChange] and [handleSubmit], and the properties of
    the issuance workflow.

    The handlers are asynchronous JavaScript functions that talk to three
    collaborators: the storage client ([ipfsService]), the contract client of
    the wallet context, and the notification library ([toast], [alert],
    [console]).  They are embedded in a small monad that threads the live
    component state and the microtasks queued behind the running job,
    records every interaction as an event of a trace, and propagates
    rejected promises and thrown errors.  What the collaborators
    answer is read from a [World].

    A handler is a closure of the render that created it: it reads the state
    cells and the wallet context of that render and writes to the live
    component through the setters.  A run is followed from the event to the
    end of the handler's job and of the microtasks queued behind it, without
    other handlers in between;
    the one callback the handlers install themselves, the file reader's
    [onloadend], fires during an await or after the run, as the world
    decides. *)

From Stdlib Require Import String Ascii List Bool NArith Lia.
From Stdlib Require Import Strings.Byte.
Import ListNotations.

Local Open Scope string_scope.

(** ** JavaScript built-ins used by the component *)

Module Js.

(** Truthiness of a string: only the empty string is falsy. *)
Definition truthy (s : string) : bool :=
  match s with
  | EmptyString => false
  | String _ _ => true
  end.

(** Truthiness of a value that is [null]/[undefined] or a string. *)
Definition truthy_opt (o : option string) : bool :=
  match o with
  | None => false
  | Some s => truthy s
  end.

(** [s.startsWith(p)] *)
Definition startsWith (s p : string) : bool := String.prefix p s.

(** [l.includes(x)] on an array of strings (strict equality). *)
Definition includes (l : list string) (x : string) : bool :=
  existsb (String.eqb x) l.

(** An [Error] object; only its [message] is read by the component. *)
Record Error := { message : string }.

Definition dquote : ascii := "034"%char.
Definition backslash : ascii := "092"%char.

Definition hexDigit (n : N) : ascii :=
  match n with
  | 0%N => "0" | 1%N => "1" | 2%N => "2" | 3%N => "3"
  | 4%N => "4" | 5%N => "5" | 6%N => "6" | 7%N => "7"
  | 8%N => "8" | 9%N => "9" | 10%N => "a" | 11%N => "b"
  | 12%N => "c" | 13%N => "d" | 14%N => "e" | _ => "f"
  end%char.

(** One character of [JSON.stringify] applied to a string
    (QuoteJSONString): the quote, the backslash and the control characters
    are escaped, everything else is copied.  Strings are kept as their
    UTF-8 bytes, so a character outside ASCII is a run of bytes above 127
    and is copied as it is. *)
Definition quoteChar (c : ascii) : string :=
  let n := N_of_ascii c in
  if (n =? 34)%N then String backslash (String dquote EmptyString)
  else if (n =? 92)%N then String backslash (String backslash EmptyString)
  else if (n =? 8)%N then String backslash "b"
  else if (n =? 9)%N then String backslash "t"
  else if (n =? 10)%N then String backslash "n"
  else if (n =? 12)%N then String backslash "f"
  else if (n =? 13)%N then String backslash "r"
  else if (n <? 32)%N then
    String backslash
      ("u00" ++ String (hexDigit (n / 16)) (String (hexDigit (n mod 16)) EmptyString))
  else String c EmptyString.

Fixpoint quoteBody (s : string) : string :=
  match s with
  | EmptyString => EmptyString
  | String c rest => quoteChar c ++ quoteBody rest
  end.

(** [JSON.stringify(s)] for a string [s]. *)
Definition quoteJSONString (s : string) : string :=
  String dquote (quoteBody s ++ String dquote EmptyString).

(** One [key:value] member of a serialized object. *)
Definition member (key value : string) : string :=
  quoteJSONString key ++ ":" ++ quoteJSONString value.

(** [JSON.stringify] of an object whose properties, in insertion order,
    are the given string-valued members. *)
Definition stringifyObject (members : list (string * string)) : string :=
  "{" ++ String.concat "," (map (fun kv => member (fst kv) (snd kv)) members) ++ "}".

(** [ethers.toUtf8Bytes]: strings are kept as their UTF-8 bytes. *)
Definition toUtf8Bytes (s : string) : list byte := list_byte_of_string s.

End Js.

Local Open Scope list_scope.

(** ** Data model *)

Module File.
(** A [File] picked in the file input. *)
Record t := { name : string; type : string; size : N }.
End File.

(** The [formData] state object. *)
Record FormData := {
  studentAddress : string;
  studentName : string;
  credentialType : string;
  institution : string;
  imageHash : string;
  imageUrl : string
}.

(** The state cells of the component, one per [useState]. *)
Record UIState := {
  step : nat;
  uploading : bool;
  imagePreview : option string;
  formData : FormData;
  isBlockchainUploading : bool;
  isSubmitting : bool
}.

Definition initialFormData : FormData :=
  {| studentAddress := EmptyString; studentName := EmptyString;
     credentialType := EmptyString; institution := EmptyString;
     imageHash := EmptyString; imageUrl := EmptyString |}.

Definition initialState : UIState :=
  {| step := 1; uploading := false; imagePreview := None;
     formData := initialFormData;
     isBlockchainUploading := false; isSubmitting := false |}.

Module Metadata.
(** The credential metadata document built by [handleSubmit]. *)
Record t := {
  studentName : string;
  studentAddress : string;
  credentialType : string;
  institution : string;
  issuerAddress : string;
  imageHash : string;
  imageUrl : string;
  issueDate : string
}.

(** [JSON.stringify(metadata)]: the properties in the order of the object
    literal. *)
Definition stringify (m : t) : string :=
  Js.stringifyObject
    [ ("studentName", studentName m);
      ("studentAddress", studentAddress m);
      ("credentialType", credentialType m);
      ("institution", institution m);
      ("issuerAddress", issuerAddress m);
      ("imageHash", imageHash m);
      ("imageUrl", imageUrl m);
      ("issueDate", issueDate m) ].
End Metadata.

(** What [ipfsService.uploadImage] resolves with. *)
Record UploadResult := { hash : string; url : string }.

(** A promise is modelled by the outcome it settles with. *)
Definition Outcome (A : Type) : Type := (Js.Error + A)%type.

(** The transaction handle returned by [issueCredential]. *)
Record Tx := { txHash : string; wait : Outcome N }.

(** The contract client of the wallet context. *)
Record Contract := {
  issueCredential : string -> string -> string -> string -> string -> Outcome Tx
}.

(** What [useWeb3()] returns; both may be absent. *)
Record Web3 := { account : option string; contract : option Contract }.

(** The values a handler closes over: the state and the wallet context of
    the render that created it. *)
Record Render := { state : UIState; web3 : Web3 }.

(** ** Interactions *)

(** The calls to the storage and contract clients. *)
Inductive Request :=
| UploadImage (file : File.t)
| UploadJSON (metadata : Metadata.t)
| IssueCredential (subjectAddress contentHash fileHash metadataHash from : string)
| TxWait (tx : string).

Inductive Reply :=
| ImageStored (r : UploadResult)
| JSONStored (metadataHash : string)
| TxSent (tx : string)
| TxConfirmed (blockNumber : N).

Inductive Event :=
| PreventDefault
| Alert (msg : string)
| ToastLoading (msg : string)
| ToastSuccess (msg : string)
| ToastError (msg : string)
| ConsoleError (label : string) (error : Js.Error)
| ReadAsDataURL (file : File.t)
| Called (req : Request)
| Resolved (req : Request) (reply : Reply)
| Rejected (req : Request) (error : Js.Error).

Definition Trace := list Event.

(** The answers of the outside world. *)
Record World := {
  now : string;                                  (* new Date().toISOString() *)
  ipfs_uploadImage : File.t -> Outcome UploadResult;
  ipfs_uploadJSON : Metadata.t -> Outcome string;
  reader_result : File.t -> option string;       (* reader.result at loadend *)
  reader_ends_first : File.t -> bool             (* loadend before the next settlement *)
}.

(** The live component: its state cells and the file readers whose
    [onloadend] callback has not fired yet. *)
Record Machine := { ui : UIState; readers : list File.t }.

(** ** The handler monad *)

(** How a piece of code completes: normally, or by a thrown error (a
    rejected promise that was awaited). *)
Inductive Completion (A : Type) :=
| Normal (a : A)
| Thrown (error : Js.Error).
Arguments Normal {A} a.
Arguments Thrown {A} error.

(** The run of a handler, from the event to the end of its job and of the
    reactions behind it: it reads the world, updates the live component and
    leaves a trace. *)
Definition M (A : Type) : Type :=
  World -> Machine -> Completion A * Machine * Trace.

(** The job that is running: the live component, and the microtasks queued
    behind the job.  The only microtasks of this page that do something are
    the reactions that [toast.promise] registers, which show a
    notification; the queue holds these notifications.  They run when the
    job suspends at an [await] or ends. *)
Record Job := { component : Machine; microtasks : Trace }.

(** A piece of the code of a job. *)
Definition Task (A : Type) : Type :=
  World -> Job -> Completion A * Job * Trace.

Definition ret {A} (a : A) : Task A := fun _ j => (Normal a, j, []).

Definition bind {A B} (c : Task A) (k : A -> Task B) : Task B :=
  fun w j =>
    match c w j with
    | (Normal a, j1, t1) =>
        let '(r, j2, t2) := k a w j1 in (r, j2, t1 ++ t2)
    | (Thrown e, j1, t1) => (Thrown e, j1, t1)
    end.

Declare Scope handler_scope.
Delimit Scope handler_scope with handler.
Notation "x <- c ;; k" := (bind c (fun x => k))
  (at level 100, c at next level, right associativity) : handler_scope.
Notation "c ;; k" := (bind c (fun _ => k))
  (at level 100, right associativity) : handler_scope.
Local Open Scope handler_scope.

Definition throw {A} (e : Js.Error) : Task A := fun _ j => (Thrown e, j, []).

Definition emit (ev : Event) : Task unit := fun _ j => (Normal tt, j, [ev]).

Definition ask : Task World := fun w j => (Normal w, j, []).

Definition modify (f : UIState -> UIState) : Task unit :=
  fun _ j =>
    (Normal tt,
     {| component := {| ui := f (ui (component j));
                        readers := readers (component j) |};
        microtasks := microtasks j |},
     []).

(** [try { body } catch (error) { handler error } finally { fin }] *)
Definition try_catch_finally (body : Task unit) (handler : Js.Error -> Task unit)
    (fin : Task unit) : Task unit :=
  fun w j =>
    let '(c1, j1, t1) := body w j in
    let '(c2, j2, t2) :=
      match c1 with
      | Normal a => (Normal a, j1, [])
      | Thrown e => handler e w j1
      end in
    let '(c3, j3, t3) := fin w j2 in
    (match c3 with Normal _ => c2 | Thrown e => Thrown e end,
     j3, t1 ++ t2 ++ t3).

(** Queue a reaction that shows [ev]. *)
Definition queue_microtask (ev : Event) (j : Job) : Job :=
  {| component := component j; microtasks := microtasks j ++ [ev] |}.

(** The queued microtasks run. *)
Definition run_microtasks : Task unit :=
  fun _ j =>
    (Normal tt, {| component := component j; microtasks := [] |}, microtasks j).

(** An event handler, [(e) => { body }] or [async (e) => { body }]: the job
    starts on the live component with nothing queued behind it, and the
    microtasks left when it ends run after it. *)
Definition handler (body : Task unit) : M unit :=
  fun w m =>
    let '(c, j, t) := body w {| component := m; microtasks := [] |} in
    (c, component j, t ++ microtasks j).

(** *** State setters *)

Definition with_step (n : nat) (s : UIState) : UIState :=
  {| step := n; uploading := uploading s; imagePreview := imagePreview s;
     formData := formData s; isBlockchainUploading := isBlockchainUploading s;
     isSubmitting := isSubmitting s |}.

Definition with_uploading (b : bool) (s : UIState) : UIState :=
  {| step := step s; uploading := b; imagePreview := imagePreview s;
     formData := formData s; isBlockchainUploading := isBlockchainUploading s;
     isSubmitting := isSubmitting s |}.

Definition with_imagePreview (p : option string) (s : UIState) : UIState :=
  {| step := step s; uploading := uploading s; imagePreview := p;
     formData := formData s; isBlockchainUploading := isBlockchainUploading s;
     isSubmitting := isSubmitting s |}.

Definition with_formData (f : FormData -> FormData) (s : UIState) : UIState :=
  {| step := step s; uploading := uploading s; imagePreview := imagePreview s;
     formData := f (formData s); isBlockchainUploading := isBlockchainUploading s;
     isSubmitting := isSubmitting s |}.

Definition with_isBlockchainUploading (b : bool) (s : UIState) : UIState :=
  {| step := step s; uploading := uploading s; imagePreview := imagePreview s;
     formData := formData s; isBlockchainUploading := b;
     isSubmitting := isSubmitting s |}.

Definition with_isSubmitting (b : bool) (s : UIState) : UIState :=
  {| step := step s; uploading := uploading s; imagePreview := imagePreview s;
     formData := formData s; isBlockchainUploading := isBlockchainUploading s;
     isSubmitting := b |}.

Definition setStep (n : nat) : Task unit := modify (with_step n).
Definition setUploading (b : bool) : Task unit := modify (with_uploading b).
Definition setImagePreview (p : option string) : Task unit :=
  modify (with_imagePreview p).
(** [setFormData(prev => f(prev))] *)
Definition setFormData (f : FormData -> FormData) : Task unit :=
  modify (with_formData f).
Definition setIsBlockchainUploading (b : bool) : Task unit :=
  modify (with_isBlockchainUploading b).
Definition setIsSubmitting (b : bool) : Task unit := modify (with_isSubmitting b).

(** *** Promises *)

(** A promise is the computation that runs when it settles, as the code
    that awaits it sees it: it completes normally with the value it
    resolves with, or throws what it rejects with.  The reactions
    registered on the promise before the [await] run first and are part of
    it. *)
Definition Promise (A : Type) : Type := Task A.

(** A pending call to a collaborator: its settlement is recorded in the
    trace. *)
Definition pending {A} (req : Request) (reply : A -> Reply) (o : Outcome A)
    : Promise A :=
  match o with
  | inr a => emit (Resolved req (reply a)) ;; ret a
  | inl e => emit (Rejected req e) ;; throw e
  end.

(** [setImagePreview(reader.result)], once for each of the given readers. *)
Definition apply_loadends (w : World) (fs : list File.t) (s : UIState) : UIState :=
  fold_left (fun s f => with_imagePreview (reader_result w f) s) fs s.

(** The component after the [onloadend] callbacks of the readers that finish
    before the awaited promise settles. *)
Definition settle (w : World) (m : Machine) : Machine :=
  {| ui := apply_loadends w (filter (reader_ends_first w) (readers m)) (ui m);
     readers := filter (fun f => negb (reader_ends_first w f)) (readers m) |}.

Definition loadend_callbacks : Task unit :=
  fun w j =>
    (Normal tt,
     {| component := settle w (component j); microtasks := microtasks j |},
     []).

(** [await p]: the job suspends, so the microtasks queued behind it run;
    the readers that end meanwhile call back; then [p] settles and the job
    goes on, or throws. *)
Definition await {A} (p : Promise A) : Task A :=
  run_microtasks ;; loadend_callbacks ;; p.

(** The late [onloadend] callbacks, fired once the handler is done. *)
Definition late_loadend (w : World) (m : Machine) : Machine :=
  {| ui := apply_loadends w (readers m) (ui m); readers := [] |}.

(** *** Collaborators *)

Module ipfsService.
Definition uploadImage (file : File.t) : Task (Promise UploadResult) :=
  emit (Called (UploadImage file)) ;;
  w <- ask ;;
  ret (pending (UploadImage file) ImageStored (ipfs_uploadImage w file)).

Definition uploadJSON (metadata : Metadata.t) : Task (Promise string) :=
  emit (Called (UploadJSON metadata)) ;;
  w <- ask ;;
  ret (pending (UploadJSON metadata) JSONStored (ipfs_uploadJSON w metadata)).
End ipfsService.

(** [contract.issueCredential(a, c, f, h, { from })] *)
Definition call_issueCredential (c : Contract)
    (subjectAddress contentHash fileHash metadataHash from : string)
    : Task (Promise Tx) :=
  let req := IssueCredential subjectAddress contentHash fileHash metadataHash from in
  emit (Called req) ;;
  ret (pending req (fun tx => TxSent (txHash tx))
         (issueCredential c subjectAddress contentHash fileHash metadataHash from)).

(** [tx.wait()] *)
Definition call_wait (tx : Tx) : Task (Promise N) :=
  emit (Called (TxWait (txHash tx))) ;;
  ret (pending (TxWait (txHash tx)) TxConfirmed (wait tx)).

Module toast.
Record Messages := { loading : string; success : string; error_ : string }.

(** [toast.error(msg)] *)
Definition error (msg : string) : Task unit := emit (ToastError msg).

(** [toast.promise(p, msgs)], which is
    [toast.loading(msgs.loading); p.then(ok).catch(err); return p]: the
    loading text is shown at once and [p] itself is returned.  The reaction
    [ok], which shows the success text, is registered on [p] before the
    caller awaits [p], so when [p] resolves it runs before the caller goes
    on.  The reaction [err], which shows the error text, is registered on
    the promise that [then] derives from [p]: when [p] rejects it is only
    queued, behind the job in which the caller goes on. *)
Definition promise {A} (p : Promise A) (msgs : Messages) : Task (Promise A) :=
  emit (ToastLoading (loading msgs)) ;;
  ret (fun w j =>
         match p w j with
         | (Normal a, j1, t1) =>
             (Normal a, j1, t1 ++ [ToastSuccess (success msgs)])
         | (Thrown e, j1, t1) =>
             (Thrown e, queue_microtask (ToastError (error_ msgs)) j1, t1)
         end).
End toast.

Definition alert (msg : string) : Task unit := emit (Alert msg).
Definition console_error (label : string) (e : Js.Error) : Task unit :=
  emit (ConsoleError label e).
Definition preventDefault : Task unit := emit PreventDefault.

(** [new Date().toISOString()] *)
Definition toISOString_now : Task string := w <- ask ;; ret (now w).

(** [reader.onloadend = ...; reader.readAsDataURL(file)] *)
Definition readAsDataURL (file : File.t) : Task unit :=
  emit (ReadAsDataURL file) ;;
  fun _ j =>
    (Normal tt,
     {| component := {| ui := ui (component j);
                        readers := readers (component j) ++ [file] |};
        microtasks := microtasks j |},
     []).

(** ** The handlers *)

Definition validTypes : list string :=
  [ "image/jpeg"; "image/png"; "image/gif"; "application/pdf";
    "application/vnd.openxmlformats-officedocument.wordprocessingml.document" ].

(** [handleFileChange], called with [e.target.files]. *)
Definition handleFileChange (files : list File.t) : M unit :=
  handler
    match nth_error files 0 with
    | None => ret tt
    | Some file =>
        if negb (Js.includes validTypes (File.type file)) then
          alert "Please upload an image (JPEG, PNG, GIF), PDF, or DOCX file"
        else
          try_catch_finally
            (setUploading true ;;
             (if Js.startsWith (File.type file) "image/"
              then readAsDataURL file
              else setImagePreview None) ;;
             p <- ipfsService.uploadImage file ;;
             r <- await p ;;
             setFormData (fun prev =>
               {| studentAddress := studentAddress prev;
                  studentName := studentName prev;
                  credentialType := credentialType prev;
                  institution := institution prev;
                  imageHash := hash r;
                  imageUrl := url r |}))
            (fun error =>
               console_error "File upload failed:" error ;;
               setImagePreview None)
            (setUploading false)
    end.

Section Submit.

(** [ethers.keccak256], from the ethers library. *)
Variable keccak256 : list byte -> string.

(** The [metadata] object literal of [handleSubmit]. *)
Definition build_metadata (fd : FormData) (account : string) (issueDate : string)
    : Metadata.t :=
  {| Metadata.studentName := studentName fd;
     Metadata.studentAddress := studentAddress fd;
     Metadata.credentialType := credentialType fd;
     Metadata.institution := institution fd;
     Metadata.issuerAddress := account;
     Metadata.imageHash := imageHash fd;
     Metadata.imageUrl := imageUrl fd;
     Metadata.issueDate := issueDate |}.

(** [ethers.keccak256(ethers.toUtf8Bytes(JSON.stringify(metadata)))] *)
Definition certificateHash (metadata : Metadata.t) : string :=
  keccak256 (Js.toUtf8Bytes (Metadata.stringify metadata)).

(** The [try] block of [handleSubmit]. *)
Definition submission (fd : FormData) (account : string) (contract : Contract)
    : Task unit :=
  issueDate <- toISOString_now ;;
  let metadata := build_metadata fd account issueDate in
  p <- ipfsService.uploadJSON metadata ;;
  p <- toast.promise p
         {| toast.loading := "Uploading metadata...";
            toast.success := "Metadata uploaded successfully";
            toast.error_ := "Failed to upload metadata" |} ;;
  metadataHash <- await p ;;
  let certificateHash := certificateHash metadata in
  p <- call_issueCredential contract (studentAddress fd) certificateHash
         (imageHash fd) metadataHash account ;;
  p <- toast.promise p
         {| toast.loading := "Confirming transaction...";
            toast.success := "Transaction sent successfully";
            toast.error_ := "Transaction failed" |} ;;
  tx <- await p ;;
  p <- call_wait tx ;;
  p <- toast.promise p
         {| toast.loading := "Waiting for blockchain confirmation...";
            toast.success := "Credential issued successfully!";
            toast.error_ := "Transaction failed" |} ;;
  _ <- await p ;;
  setStep 2.

(** [handleSubmit], as created by the render [r]: it reads [isSubmitting],
    [formData], [account] and [contract] from [r] and writes to the live
    component through the setters. *)
Definition handleSubmit (r : Render) : M unit :=
  handler
    (preventDefault ;;
     if isSubmitting (state r) then ret tt
     else if negb (Js.truthy (imageHash (formData (state r)))) then
       toast.error "Please upload a certificate file first"
     else
       match account (web3 r) with
       | None => toast.error "Please connect your wallet first"
       | Some EmptyString => toast.error "Please connect your wallet first"
       | Some account =>
           match contract (web3 r) with
           | None => toast.error "Contract not initialized"
           | Some contract =>
               setIsSubmitting true ;;
               setUploading true ;;
               setIsBlockchainUploading true ;;
               try_catch_finally
                 (submission (formData (state r)) account contract)
                 (fun error =>
                    console_error "Error uploading credential:" error ;;
                    toast.error
                      ("Failed to issue credential: " ++ Js.message error)%string)
                 (setIsSubmitting false ;;
                  setUploading false ;;
                  setIsBlockchainUploading false)
           end
       end).

End Submit.

(** ** Observations on a run *)

Definition completion {A} (x : Completion A * Machine * Trace) : Completion A :=
  fst (fst x).
Definition final {A} (x : Completion A * Machine * Trace) : Machine :=
  snd (fst x).
Definition trace {A} (x : Completion A * Machine * Trace) : Trace := snd x.

(** The steps of the submission sequence that call a collaborator. *)
Inductive Step := MetadataUpload | ContractCall | ConfirmationWait.

Definition step_of_request (req : Request) : option Step :=
  match req with
  | UploadImage _ => None
  | UploadJSON _ => Some MetadataUpload
  | IssueCredential _ _ _ _ _ => Some ContractCall
  | TxWait _ => Some ConfirmationWait
  end.

(** The steps started in a trace, in order. *)
Fixpoint called_steps (tr : Trace) : list Step :=
  match tr with
  | [] => []
  | Called req :: rest =>
      match step_of_request req with
      | Some k => k :: called_steps rest
      | None => called_steps rest
      end
  | _ :: rest => called_steps rest
  end.

(** The requests sent to the storage and contract clients, in order. *)
Fixpoint requests (tr : Trace) : list Request :=
  match tr with
  | [] => []
  | Called req :: rest => req :: requests rest
  | _ :: rest => requests rest
  end.

(** The error notifications shown to the user, in order. *)
Fixpoint error_toasts (tr : Trace) : list string :=
  match tr with
  | [] => []
  | ToastError msg :: rest => msg :: error_toasts rest
  | _ :: rest => error_toasts rest
  end.

Definition is_contract_call (ev : Event) : bool :=
  match ev with
  | Called (IssueCredential _ _ _ _ _) => true
  | _ => false
  end.

(** The error text that [handleSubmit] hands to [toast.promise] for each
    step. *)
Definition step_error_text (k : Step) : string :=
  match k with
  | MetadataUpload => "Failed to upload metadata"
  | ContractCall => "Transaction failed"
  | ConfirmationWait => "Transaction failed"
  end.

(** The guards of [handleSubmit] other than the in-flight flag, as read from
    the render the handler closes over. *)
Definition preconditions (r : Render) : bool :=
  Js.truthy (imageHash (formData (state r)))
  && Js.truthy_opt (account (web3 r))
  && match contract (web3 r) with Some _ => true | None => false end.

Section SubmitWorld.

Variable keccak256 : list byte -> string.

(** The first step of a submission that the world makes fail, with the
    error it fails with; [None] when every step resolves. *)
Definition first_failure (w : World) (fd : FormData) (account : string)
    (c : Contract) : option (Step * Js.Error) :=
  let metadata := build_metadata fd account (now w) in
  match ipfs_uploadJSON w metadata with
  | inl e => Some (MetadataUpload, e)
  | inr metadataHash =>
      match issueCredential c (studentAddress fd)
              (certificateHash keccak256 metadata) (imageHash fd)
              metadataHash account with
      | inl e => Some (ContractCall, e)
      | inr tx =>
          match wait tx with
          | inl e => Some (ConfirmationWait, e)
          | inr _ => None
          end
      end
  end.

End SubmitWorld.

(** The texts of the three precondition guards of [handleSubmit]. *)
Definition guard_messages : list string :=
  [ "Please upload a certificate file first";
    "Please connect your wallet first";
    "Contract not initialized" ].

(** The steps started when the submission stops at step [k]. *)
Definition steps_through (k : Step) : list Step :=
  match k with
  | MetadataUpload => [MetadataUpload]
  | ContractCall => [MetadataUpload; ContractCall]
  | ConfirmationWait => [MetadataUpload; ContractCall; ConfirmationWait]
  end.

(** The component once the three in-flight flags are set, and once they are
    cleared again. *)
Definition in_flight (m : Machine) : Machine :=
  {| ui := with_isBlockchainUploading true
             (with_uploading true (with_isSubmitting true (ui m)));
     readers := readers m |}.

Definition flags_cleared (m : Machine) : Machine :=
  {| ui := with_isBlockchainUploading false
             (with_uploading false (with_isSubmitting false (ui m)));
     readers := readers m |}.

Definition stepped (n : nat) (m : Machine) : Machine :=
  {| ui := with_step n (ui m); readers := readers m |}.

(** ** The other handlers of the page *)

(** The [onChange] handlers written on the select and the three text
    inputs: [setFormData(prev => ({ ...prev, field: e.target.value }))]. *)
Definition onChange_credentialType (value : string) : M unit :=
  handler (setFormData (fun prev =>
    {| studentAddress := studentAddress prev;
       studentName := studentName prev;
       credentialType := value;
       institution := institution prev;
       imageHash := imageHash prev;
       imageUrl := imageUrl prev |})).

Definition onChange_institution (value : string) : M unit :=
  handler (setFormData (fun prev =>
    {| studentAddress := studentAddress prev;
       studentName := studentName prev;
       credentialType := credentialType prev;
       institution := value;
       imageHash := imageHash prev;
       imageUrl := imageUrl prev |})).

Definition onChange_studentAddress (value : string) : M unit :=
  handler (setFormData (fun prev =>
    {| studentAddress := value;
       studentName := studentName prev;
       credentialType := credentialType prev;
       institution := institution prev;
       imageHash := imageHash prev;
       imageUrl := imageUrl prev |})).

Definition onChange_studentName (value : string) : M unit :=
  handler (setFormData (fun prev =>
    {| studentAddress := studentAddress prev;
       studentName := value;
       credentialType := credentialType prev;
       institution := institution prev;
       imageHash := imageHash prev;
       imageUrl := imageUrl prev |})).

(** The [onClick] of the button on the image preview. *)
Definition onClick_removePreview : M unit :=
  handler
    (setImagePreview None ;;
     setFormData (fun prev =>
       {| studentAddress := studentAddress prev;
          studentName := studentName prev;
          credentialType := credentialType prev;
          institution := institution prev;
          imageHash := EmptyString;
          imageUrl := EmptyString |})).

(** The [onClick] of "Issue Another Certificate". *)
Definition onClick_issueAnother : M unit :=
  handler
    (setStep 1 ;;
     setFormData (fun _ =>
       {| studentAddress := EmptyString;
          studentName := EmptyString;
          credentialType := EmptyString;
          institution := EmptyString;
          imageHash := EmptyString;
          imageUrl := EmptyString |}) ;;
     setImagePreview None).

(** ** What the component renders *)

Inductive SubmitLabel := Processing | Continue.

(** The panel rendered when [step === 1]: the values shown in the four
    inputs, the preview image with its remove button, the two progress notes
    and the submit button. *)
Record FormPanel := {
  credentialType_value : string;
  institution_value : string;
  studentAddress_value : string;
  studentName_value : string;
  preview : option string;
  uploading_note : bool;
  blockchain_note : bool;
  submit_disabled : bool;
  submit_label : SubmitLabel
}.

(** The two panels inside [AnimatePresence]; the second holds the "Issue
    Another Certificate" button. *)
Record View := { form_panel : option FormPanel; success_panel : bool }.

(** The JSX returned by the component for a state, as far as it depends on
    the state: the element tree of that render.  What is on the screen can
    lag behind it: [AnimatePresence mode="wait"], around the two panels,
    keeps a panel that has left the tree on the screen, as it was last
    rendered, until its exit animation is over. *)
Definition view (s : UIState) : View :=
  {| form_panel :=
       if Nat.eqb (step s) 1 then
         Some {| credentialType_value := credentialType (formData s);
                 institution_value := institution (formData s);
                 studentAddress_value := studentAddress (formData s);
                 studentName_value := studentName (formData s);
                 preview :=
                   match imagePreview s with
                   | Some src => if Js.truthy src then Some src else None
                   | None => None
                   end;
                 uploading_note := uploading s;
                 blockchain_note := isBlockchainUploading s;
                 submit_disabled := isSubmitting s || uploading s;
                 submit_label := if isSubmitting s then Processing else Continue |}
       else None;
     success_panel := Nat.eqb (step s) 2 |}.

(** ** Sessions *)

(** What can happen to the mounted component: the user's gestures, and the
    end of the file readers that are still pending. *)
Inductive Gesture :=
| ChangeCredentialType (value : string)
| ChangeInstitution (value : string)
| ChangeStudentAddress (value : string)
| ChangeStudentName (value : string)
| ChangeFile (files : list File.t)
| ClickRemovePreview
| SubmitForm
| ClickIssueAnother
| ReadersEnd.

(** A gesture, with the wallet context and the outside world of its time. *)
Record Moment := { world : World; wallet : Web3; gesture : Gesture }.

Section Session.

Variable keccak256 : list byte -> string.

(** The handler that a gesture runs; [s] is the state of the render that
    created the handler. *)
Definition perform (wallet : Web3) (s : UIState) (g : Gesture) : M unit :=
  match g with
  | ChangeCredentialType value => onChange_credentialType value
  | ChangeInstitution value => onChange_institution value
  | ChangeStudentAddress value => onChange_studentAddress value
  | ChangeStudentName value => onChange_studentName value
  | ChangeFile files => handleFileChange files
  | ClickRemovePreview => onClick_removePreview
  | SubmitForm => handleSubmit keccak256 {| state := s; web3 := wallet |}
  | ClickIssueAnother => onClick_issueAnother
  | ReadersEnd => fun w m => (Normal tt, late_loadend w m, [])
  end.

(** The handlers of a list of moments, each run to its end on the component
    the one before has left, each created by the render of that component.
    The result is the component at the end and the whole trace. *)
Fixpoint session (moments : list Moment) (m : Machine) : Machine * Trace :=
  match moments with
  | [] => (m, [])
  | mo :: rest =>
      let '(_, m1, t1) :=
        perform (wallet mo) (ui m) (gesture mo) (world mo) m in
      let '(m2, t2) := session rest m1 in
      (m2, t1 ++ t2)
  end.

End Session.

(** The gestures that edit one of the four text fields. *)
Definition is_text_edit (g : Gesture) : bool :=
  match g with
  | ChangeCredentialType _ | ChangeInstitution _
  | ChangeStudentAddress _ | ChangeStudentName _ => true
  | _ => false
  end.

(** The component when it is mounted. *)
Definition mounted : Machine := {| ui := initialState; readers := [] |}.

(** ** Role redirection (App) *)

Module App.

(** What [useAuth()] gives: the signed-in user, if any, and the user's
    type. *)
Record Auth (User : Type) := { user : option User; userType : option string }.
Arguments user {User} a.
Arguments userType {User} a.

(** What a component of [App] yields: [Navigate] elements go to a path, and
    the default case of the switch writes a line on the console first. *)
Record Redirect := { to : string; logged : option (option string) }.

Section Roles.

(** [userTypes.STUDENT] and [userTypes.INSTITUTE], of [utils/schema]. *)
Variables STUDENT INSTITUTE : string.
Variable User : Type.

(** [userType === t] *)
Definition is_type (a : Auth User) (t : string) : bool :=
  match userType a with
  | Some u => String.eqb u t
  | None => false
  end.

Definition RoleBasedRedirect (a : Auth User) : Redirect :=
  match user a with
  | None => {| to := "/signin"; logged := None |}
  | Some _ =>
      if is_type a STUDENT then
        {| to := "/student/studentdetails"; logged := None |}
      else if is_type a INSTITUTE then
        {| to := "/institution/dashboard"; logged := None |}
      else
        {| to := "/signin"; logged := Some (userType a) |}
  end.

(** The target of the "Go to Dashboard" link of [UnauthorizedPage]. *)
Definition UnauthorizedPage_link (a : Auth User) : string :=
  if is_type a STUDENT then "/student/studentdetails"
  else "/institution/dashboard".

End Roles.

End App.

(** ** Descriptions of the runs of [handleFileChange] *)

(** The component when the upload of [file] has been started: [uploading]
    is set, and either a reader of the image is pending or the preview is
    cleared. *)
Definition started (file : File.t) (m : Machine) : Machine :=
  if Js.startsWith (File.type file) "image/" then
    {| ui := with_uploading true (ui m); readers := readers m ++ [file] |}
  else
    {| ui := with_imagePreview None (with_uploading true (ui m));
       readers := readers m |}.

(** The events up to the start of the upload. *)
Definition start_events (file : File.t) : Trace :=
  (if Js.startsWith (File.type file) "image/" then [ReadAsDataURL file] else [])
  ++ [Called (UploadImage file)].

(** The form with the answer of the storage client. *)
Definition stored (res : UploadResult) (prev : FormData) : FormData :=
  {| studentAddress := studentAddress prev;
     studentName := studentName prev;
     credentialType := credentialType prev;
     institution := institution prev;
     imageHash := hash res;
     imageUrl := url res |}.

(** What the user is shown: alerts and toasts. *)
Fixpoint notifications (tr : Trace) : Trace :=
  match tr with
  | [] => []
  | Alert msg :: rest => Alert msg :: notifications rest
  | ToastLoading msg :: rest => ToastLoading msg :: notifications rest
  | ToastSuccess msg :: rest => ToastSuccess msg :: notifications rest
  | ToastError msg :: rest => ToastError msg :: notifications rest
  | _ :: rest => notifications rest
  end.

(** ** Properties of the states of a session *)

(** Nothing is in flight, and one of the two panels is up. *)
Definition settled (s : UIState) : Prop :=
  isSubmitting s = false
  /\ uploading s = false
  /\ isBlockchainUploading s = false
  /\ (step s = 1 \/ step s = 2).

(** The file hash and the URL of the form are empty, or they are the answer
    of the storage client to an upload of an accepted file recorded in the
    history. *)
Definition from_storage (history : Trace) (fd : FormData) : Prop :=
  (imageHash fd = EmptyString /\ imageUrl fd = EmptyString)
  \/ exists file res,
       In (Resolved (UploadImage file) (ImageStored res)) history
       /\ Js.includes validTypes (File.type file) = true
       /\ imageHash fd = hash res
       /\ imageUrl fd = url res.

(** The history holds a contract call that resolved with a transaction and
    the resolved confirmation of that transaction. *)
Definition confirmed (history : Trace) : Prop :=
  exists subject contentHash fileHash metadataHash from tx blockNumber,
    In (Resolved (IssueCredential subject contentHash fileHash metadataHash from)
          (TxSent tx)) history
    /\ In (Resolved (TxWait tx) (TxConfirmed blockNumber)) history.

(** ** Reading back a quoted string *)

Module Unquote.

Definition hexValue (c : ascii) : N :=
  let n := N_of_ascii c in
  if ((48 <=? n) && (n <=? 57))%N then (n - 48)%N
  else if ((97 <=? n) && (n <=? 102))%N then (n - 87)%N
  else 0%N.

(** The first character of a quoted body and what follows it; nothing at a
    closing quote or at a malformed escape.  It undoes [Js.quoteChar]. *)
Definition char (s : string) : option (ascii * string) :=
  match s with
  | EmptyString => None
  | String c rest =>
      if (N_of_ascii c =? 34)%N then None
      else if (N_of_ascii c =? 92)%N then
        match rest with
        | String t rest' =>
            let n := N_of_ascii t in
            if (n =? 34)%N then Some (Js.dquote, rest')
            else if (n =? 92)%N then Some (Js.backslash, rest')
            else if (n =? 98)%N then Some ("008"%char, rest')
            else if (n =? 116)%N then Some ("009"%char, rest')
            else if (n =? 110)%N then Some ("010"%char, rest')
            else if (n =? 102)%N then Some ("012"%char, rest')
            else if (n =? 114)%N then Some ("013"%char, rest')
            else if (n =? 117)%N then
              match rest' with
              | String _ (String _ (String h1 (String h2 rest''))) =>
                  Some (ascii_of_N (16 * hexValue h1 + hexValue h2), rest'')
              | _ => None
              end
            else None
        | EmptyString => None
        end
      else Some (c, rest)
  end.

End Unquote.

(** ** Sample collaborators, for concrete runs *)

Module Sample.

(** A stand-in for the library's hash, used only to run the handlers on
    concrete inputs: the bytes, prefixed. *)
Definition keccak256 (bs : list byte) : string :=
  ("0x" ++ string_of_list_byte bs)%string.

Definition failure : Js.Error := {| Js.message := "user rejected transaction" |}.

Definition tx_ok : Tx := {| txHash := "0x7a"; wait := inr 12%N |}.
Definition tx_dropped : Tx := {| txHash := "0x7b"; wait := inl failure |}.

Definition contract_ok : Contract :=
  {| issueCredential := fun _ _ _ _ _ => inr tx_ok |}.
Definition contract_rejecting : Contract :=
  {| issueCredential := fun _ _ _ _ _ => inl failure |}.
Definition contract_dropping : Contract :=
  {| issueCredential := fun _ _ _ _ _ => inr tx_dropped |}.

Definition world_ok : World :=
  {| now := "2024-05-01T10:00:00.000Z";
     ipfs_uploadImage := fun _ =>
       inr {| hash := "QmNewFile"; url := "https://ipfs.io/ipfs/QmNewFile" |};
     ipfs_uploadJSON := fun _ => inr "QmMeta";
     reader_result := fun _ => Some "data:image/png;base64,AAAA";
     reader_ends_first := fun _ => true |}.

Definition world_storage_down : World :=
  {| now := "2024-05-01T10:00:00.000Z";
     ipfs_uploadImage := fun _ => inl {| Js.message := "network error" |};
     ipfs_uploadJSON := fun _ => inl {| Js.message := "network error" |};
     reader_result := fun _ => Some "data:image/png;base64,AAAA";
     reader_ends_first := fun _ => false |}.

(** Same clock as [world_ok], other answers. *)
Definition world_other : World :=
  {| now := "2024-05-01T10:00:00.000Z";
     ipfs_uploadImage := fun _ => inl {| Js.message := "network error" |};
     ipfs_uploadJSON := fun _ => inr "QmOtherMeta";
     reader_result := fun _ => None;
     reader_ends_first := fun _ => false |}.

Definition form : FormData :=
  {| studentAddress := "0xA11CE"; studentName := "Alice";
     credentialType := "degree"; institution := "Example University";
     imageHash := "QmFile"; imageUrl := "https://ipfs.io/ipfs/QmFile" |}.

Definition ready : UIState :=
  {| step := 1; uploading := false; imagePreview := None; formData := form;
     isBlockchainUploading := false; isSubmitting := false |}.

(** The state while a submission is in flight. *)
Definition busy : UIState :=
  {| step := 1; uploading := true; imagePreview := None; formData := form;
     isBlockchainUploading := true; isSubmitting := true |}.

Definition wallet (c : Contract) : Web3 :=
  {| account := Some "0x155UER"; contract := Some c |}.

Definition render (s : UIState) (c : Contract) : Render :=
  {| state := s; web3 := wallet c |}.

(** The wallet after a disconnection. *)
Definition disconnected : Web3 := {| account := None; contract := None |}.

Definition machine (s : UIState) : Machine := {| ui := s; readers := [] |}.

Definition text_file : File.t :=
  {| File.name := "notes.txt"; File.type := "text/plain"; File.size := 2048 |}.

(** A PNG of 11 MiB. *)
Definition big_png : File.t :=
  {| File.name := "scan.png"; File.type := "image/png";
     File.size := 11 * 1024 * 1024 |}.

End Sample.

(** ** A sample session *)

Module Scenario.

Definition at_ok (g : Gesture) : Moment :=
  {| world := Sample.world_ok;
     wallet := Sample.wallet Sample.contract_ok;
     gesture := g |}.

(** The form is filled, a PNG is picked and uploaded, and the form is
    submitted. *)
Definition issuance : list Moment :=
  [ at_ok (ChangeStudentAddress "0xA11CE");
    at_ok (ChangeStudentName "Alice");
    at_ok (ChangeCredentialType "degree");
    at_ok (ChangeInstitution "Example University");
    at_ok (ChangeFile [Sample.big_png]);
    at_ok SubmitForm ].

Definition pdf : File.t :=
  {| File.name := "degree.pdf"; File.type := "application/pdf";
     File.size := 300000 |}.

End Scenario.

(** ** Facts about the state setters and the reader callbacks *)

Lemma apply_loadends_fields w fs s :
  step (apply_loadends w fs s) = step s
  /\ uploading (apply_loadends w fs s) = uploading s
  /\ formData (apply_loadends w fs s) = formData s
  /\ isBlockchainUploading (apply_loadends w fs s) = isBlockchainUploading s
  /\ isSubmitting (apply_loadends w fs s) = isSubmitting s.
Proof.
  unfold apply_loadends. revert s.
  induction fs as [|f fs IH]; intros s; cbn [fold_left].
  - repeat split.
  - destruct (IH (with_imagePreview (reader_result w f) s))
      as (H1 & H2 & H3 & H4 & H5).
    rewrite H1, H2, H3, H4, H5. repeat split.
Qed.

Lemma settle_step w m : step (ui (settle w m)) = step (ui m).
Proof. apply apply_loadends_fields. Qed.

Lemma settle_uploading w m : uploading (ui (settle w m)) = uploading (ui m).
Proof. apply apply_loadends_fields. Qed.

Lemma settle_formData w m : formData (ui (settle w m)) = formData (ui m).
Proof. apply apply_loadends_fields. Qed.

Lemma settle_isBlockchainUploading w m :
  isBlockchainUploading (ui (settle w m)) = isBlockchainUploading (ui m).
Proof. apply apply_loadends_fields. Qed.

Lemma settle_isSubmitting w m :
  isSubmitting (ui (settle w m)) = isSubmitting (ui m).
Proof. apply apply_loadends_fields. Qed.

Lemma settle_no_readers w m : readers m = [] -> settle w m = m.
Proof.
  intros H. unfold settle. rewrite H. cbn. destruct m as [s rs].
  cbn in *. now subst.
Qed.

Lemma late_loadend_formData w m : formData (ui (late_loadend w m)) = formData (ui m).
Proof. apply apply_loadends_fields. Qed.

Create Rewrite HintDb ui_fields.
#[local] Hint Rewrite settle_step settle_uploading settle_formData
  settle_isBlockchainUploading settle_isSubmitting : ui_fields.

Arguments settle : simpl never.
Arguments build_metadata : simpl never.
Arguments certificateHash : simpl never.

(** ** Runs of [handleSubmit] *)

Ltac unfold_handlers :=
  unfold handleSubmit, handleFileChange, handler, submission,
    try_catch_finally, await, run_microtasks, loadend_callbacks, toast.promise, toast.error, ipfsService.uploadJSON,
    ipfsService.uploadImage, call_issueCredential, call_wait, toISOString_now,
    console_error, preventDefault, alert, readAsDataURL, setStep, setUploading,
    setIsSubmitting, setIsBlockchainUploading, setImagePreview, setFormData,
    modify, ask, emit.

Ltac run := cbn -[String.append Js.includes Js.startsWith validTypes].

Section Runs.

Variable keccak256 : list byte -> string.
Variables (r : Render) (w : World) (m : Machine).
Variables (a : string) (c : Contract).

Hypothesis not_submitting : isSubmitting (state r) = false.
Hypothesis file_uploaded : Js.truthy (imageHash (formData (state r))) = true.
Hypothesis connected : account (web3 r) = Some a.
Hypothesis account_truthy : Js.truthy a = true.
Hypothesis initialized : contract (web3 r) = Some c.

Let fd := formData (state r).
Let metadata := build_metadata fd a (now w).
Let issue (metadataHash : string) : Request :=
  IssueCredential (studentAddress fd) (certificateHash keccak256 metadata)
    (imageHash fd) metadataHash a.

Ltac enter :=
  subst issue metadata fd; unfold_handlers;
  rewrite not_submitting, file_uploaded, connected, initialized;
  destruct a as [|ch a']; [discriminate account_truthy|]; run.

Lemma run_metadata_upload_fails e :
  ipfs_uploadJSON w metadata = inl e ->
  handleSubmit keccak256 r w m =
    (Normal tt, flags_cleared (settle w (in_flight m)),
     [ PreventDefault;
       Called (UploadJSON metadata);
       ToastLoading "Uploading metadata...";
       Rejected (UploadJSON metadata) e;
       ConsoleError "Error uploading credential:" e;
       ToastError ("Failed to issue credential: " ++ Js.message e)%string;
       ToastError "Failed to upload metadata" ]).
Proof.
  intros He. revert He. enter. intros He. rewrite He. reflexivity.
Qed.

Lemma run_contract_call_fails h e :
  ipfs_uploadJSON w metadata = inr h ->
  issueCredential c (studentAddress fd) (certificateHash keccak256 metadata)
    (imageHash fd) h a = inl e ->
  handleSubmit keccak256 r w m =
    (Normal tt, flags_cleared (settle w (settle w (in_flight m))),
     [ PreventDefault;
       Called (UploadJSON metadata);
       ToastLoading "Uploading metadata...";
       Resolved (UploadJSON metadata) (JSONStored h);
       ToastSuccess "Metadata uploaded successfully";
       Called (issue h);
       ToastLoading "Confirming transaction...";
       Rejected (issue h) e;
       ConsoleError "Error uploading credential:" e;
       ToastError ("Failed to issue credential: " ++ Js.message e)%string;
       ToastError "Transaction failed" ]).
Proof.
  intros Hh He. revert Hh He. enter. intros Hh He.
  rewrite Hh. run. rewrite He. reflexivity.
Qed.

Lemma run_confirmation_fails h tx e :
  ipfs_uploadJSON w metadata = inr h ->
  issueCredential c (studentAddress fd) (certificateHash keccak256 metadata)
    (imageHash fd) h a = inr tx ->
  wait tx = inl e ->
  handleSubmit keccak256 r w m =
    (Normal tt, flags_cleared (settle w (settle w (settle w (in_flight m)))),
     [ PreventDefault;
       Called (UploadJSON metadata);
       ToastLoading "Uploading metadata...";
       Resolved (UploadJSON metadata) (JSONStored h);
       ToastSuccess "Metadata uploaded successfully";
       Called (issue h);
       ToastLoading "Confirming transaction...";
       Resolved (issue h) (TxSent (txHash tx));
       ToastSuccess "Transaction sent successfully";
       Called (TxWait (txHash tx));
       ToastLoading "Waiting for blockchain confirmation...";
       Rejected (TxWait (txHash tx)) e;
       ConsoleError "Error uploading credential:" e;
       ToastError ("Failed to issue credential: " ++ Js.message e)%string;
       ToastError "Transaction failed" ]).
Proof.
  intros Hh Htx He. revert Hh Htx He. enter. intros Hh Htx He.
  rewrite Hh. run. rewrite Htx. run. rewrite He. reflexivity.
Qed.

Lemma run_confirmed h tx n :
  ipfs_uploadJSON w metadata = inr h ->
  issueCredential c (studentAddress fd) (certificateHash keccak256 metadata)
    (imageHash fd) h a = inr tx ->
  wait tx = inr n ->
  handleSubmit keccak256 r w m =
    (Normal tt,
     flags_cleared (stepped 2 (settle w (settle w (settle w (in_flight m))))),
     [ PreventDefault;
       Called (UploadJSON metadata);
       ToastLoading "Uploading metadata...";
       Resolved (UploadJSON metadata) (JSONStored h);
       ToastSuccess "Metadata uploaded successfully";
       Called (issue h);
       ToastLoading "Confirming transaction...";
       Resolved (issue h) (TxSent (txHash tx));
       ToastSuccess "Transaction sent successfully";
       Called (TxWait (txHash tx));
       ToastLoading "Waiting for blockchain confirmation...";
       Resolved (TxWait (txHash tx)) (TxConfirmed n);
       ToastSuccess "Credential issued successfully!" ]).
Proof.
  intros Hh Htx Hn. revert Hh Htx Hn. enter. intros Hh Htx Hn.
  rewrite Hh. run. rewrite Htx. run. rewrite Hn. reflexivity.
Qed.

End Runs.

(** *** Runs that stop at a guard *)

Lemma run_in_flight keccak256 r w m :
  isSubmitting (state r) = true ->
  handleSubmit keccak256 r w m = (Normal tt, m, [PreventDefault]).
Proof.
  intros H. unfold_handlers. rewrite H. destruct m. reflexivity.
Qed.

Lemma run_blocked keccak256 r w m :
  isSubmitting (state r) = false ->
  preconditions r = false ->
  exists msg, In msg guard_messages
    /\ handleSubmit keccak256 r w m
       = (Normal tt, m, [PreventDefault; ToastError msg]).
Proof.
  intros Hs Hp. unfold preconditions in Hp. unfold_handlers. rewrite Hs.
  destruct m as [s rs].
  destruct (Js.truthy (imageHash (formData (state r)))).
  - destruct (account (web3 r)) as [[|ch a']|].
    + eexists. split; [|reflexivity]. cbn. auto.
    + destruct (contract (web3 r)).
      * discriminate Hp.
      * eexists. split; [|reflexivity]. cbn. auto.
    + eexists. split; [|reflexivity]. cbn. auto.
  - eexists. split; [|reflexivity]. cbn. auto.
Qed.

Lemma preconditions_true r :
  preconditions r = true ->
  exists a c,
    Js.truthy (imageHash (formData (state r))) = true
    /\ account (web3 r) = Some a
    /\ Js.truthy a = true
    /\ contract (web3 r) = Some c.
Proof.
  unfold preconditions. intros H.
  apply andb_prop in H. destruct H as [H Hc].
  apply andb_prop in H. destruct H as [Hf Ha].
  destruct (account (web3 r)) as [a|]; [|discriminate Ha].
  destruct (contract (web3 r)) as [c|]; [|discriminate Hc].
  exists a, c. auto.
Qed.

Lemma preconditions_false r :
  imageHash (formData (state r)) = EmptyString
  \/ Js.truthy_opt (account (web3 r)) = false
  \/ contract (web3 r) = None ->
  preconditions r = false.
Proof.
  unfold preconditions. intros [H | [H | H]]; rewrite H; cbn.
  - reflexivity.
  - now rewrite andb_false_r.
  - apply andb_false_r.
Qed.

Lemma truthy_nonempty s : Js.truthy s = true <-> s <> EmptyString.
Proof.
  destruct s; cbn; split; intros H; try reflexivity; try discriminate.
  now contradict H.
Qed.

(** Every run of [handleSubmit] is one of the six runs above. *)
Ltac submit_cases k r w m :=
  let Hsub := fresh "Hsub" in
  let Hpre := fresh "Hpre" in
  destruct (isSubmitting (state r)) eqn:Hsub;
  [ rewrite (run_in_flight k r w m Hsub)
  | destruct (preconditions r) eqn:Hpre;
    [ let a := fresh "a" in
      let c := fresh "c" in
      let Hfile := fresh "Hfile" in
      let Hacc := fresh "Hacc" in
      let Ha := fresh "Ha" in
      let Hc := fresh "Hc" in
      let Hup := fresh "Hup" in
      let Htx := fresh "Htx" in
      let Hw := fresh "Hw" in
      let e := fresh "e" in
      let h := fresh "h" in
      let tx := fresh "tx" in
      let n := fresh "n" in
      destruct (preconditions_true r Hpre) as (a & c & Hfile & Hacc & Ha & Hc);
      destruct (ipfs_uploadJSON w (build_metadata (formData (state r)) a (now w)))
        as [e|h] eqn:Hup;
      [ rewrite (run_metadata_upload_fails k r w m a c Hsub Hfile Hacc Ha Hc e Hup)
      | destruct (issueCredential c (studentAddress (formData (state r)))
                    (certificateHash k
                       (build_metadata (formData (state r)) a (now w)))
                    (imageHash (formData (state r))) h a)
          as [e|tx] eqn:Htx;
        [ rewrite (run_contract_call_fails k r w m a c Hsub Hfile Hacc Ha Hc
                     h e Hup Htx)
        | destruct (wait tx) as [e|n] eqn:Hw;
          [ rewrite (run_confirmation_fails k r w m a c Hsub Hfile Hacc Ha Hc
                       h tx e Hup Htx Hw)
          | rewrite (run_confirmed k r w m a c Hsub Hfile Hacc Ha Hc
                       h tx n Hup Htx Hw) ] ] ]
    | let msg := fresh "msg" in
      let Hmsg := fresh "Hmsg" in
      let Hrun := fresh "Hrun" in
      destruct (run_blocked k r w m Hsub Hpre) as (msg & Hmsg & Hrun);
      rewrite Hrun ] ].

(** *** Splitting a trace at an event *)

Lemma split_nil (pre post : Trace) (ev : Event) : [] <> pre ++ ev :: post.
Proof. destruct pre; discriminate. Qed.

Lemma split_cons (x : Event) (l pre post : Trace) (ev : Event) :
  x :: l = pre ++ ev :: post ->
  (pre = [] /\ x = ev /\ l = post)
  \/ exists pre', pre = x :: pre' /\ l = pre' ++ ev :: post.
Proof.
  destruct pre as [|y pre']; cbn; intros H; injection H as -> ->.
  - left. auto.
  - right. exists pre'. auto.
Qed.

(** All the ways a literal trace can be [pre ++ ev :: post]. *)
Ltac split_trace H :=
  lazymatch type of H with
  | [] = _ ++ _ :: _ => exfalso; exact (split_nil _ _ _ H)
  | _ :: _ = _ ++ _ :: _ =>
      let Hev := fresh "Hev" in
      let Hpost := fresh "Hpost" in
      let pre' := fresh "pre" in
      apply split_cons in H;
      destruct H as [(-> & Hev & Hpost) | (pre' & -> & H)];
      [ try discriminate Hev | split_trace H ]
  end.

(** ** The in-flight guard *)

(** C4. When the handler reads a set [isSubmitting] flag, its run is a
    no-op: it returns at once, nothing but [preventDefault] is recorded (no
    upload, no contract call, no notification) and the live component is
    left as it was.  Hence a submission and a second invocation made while
    it is in flight issue at most one contract call together. *)
Theorem in_flight_submit_is_noop keccak256 r w m :
  isSubmitting (state r) = true ->
  handleSubmit keccak256 r w m = (Normal tt, m, [PreventDefault])
  /\ forall r1 w1 m1,
       length (filter is_contract_call
                 (trace (handleSubmit keccak256 r1 w1 m1)
                  ++ trace (handleSubmit keccak256 r w m))) <= 1.
Proof.
  intros H. split; [now apply run_in_flight|].
  intros r1 w1 m1. rewrite (run_in_flight keccak256 r w m H).
  submit_cases keccak256 r1 w1 m1; cbn; lia.
Qed.

Lemma in_flight_submit_is_noop_witness :
  isSubmitting (state (Sample.render Sample.busy Sample.contract_ok)) = true
  /\ handleSubmit Sample.keccak256 (Sample.render Sample.busy Sample.contract_ok)
       Sample.world_ok (Sample.machine Sample.busy)
     = (Normal tt, Sample.machine Sample.busy, [PreventDefault]).
Proof.
  split; [reflexivity|].
  apply (in_flight_submit_is_noop Sample.keccak256
           (Sample.render Sample.busy Sample.contract_ok)
           Sample.world_ok (Sample.machine Sample.busy)).
  reflexivity.
Defined.

(** ** The preconditions of a submission *)

(** C2, as stated, fails while a submission is in flight: when the wallet
    is disconnected meanwhile and the handler is invoked again, it returns at
    the in-flight guard and shows no notification at all. *)
Lemma in_flight_guard_is_silent :
  let r := {| state := Sample.busy; web3 := Sample.disconnected |} in
  let run := handleSubmit Sample.keccak256 r Sample.world_ok
               (Sample.machine Sample.busy) in
  Js.truthy_opt (account (web3 r)) = false
  /\ contract (web3 r) = None
  /\ error_toasts (trace run) = []
  /\ trace run = [PreventDefault].
Proof. repeat split. Qed.

(** C2, amended.  If the file hash is empty, or no account is connected, or
    no contract client is available, the handler sends nothing to the
    storage or contract client and leaves the live component as it was.
    When no submission is in flight it shows exactly one error
    notification, the text of the first guard that fails: the file guard,
    then the wallet guard, then the contract guard.  When a submission is in
    flight it returns at the in-flight guard and shows nothing. *)
Theorem blocked_submission_issues_no_call keccak256 r w m :
  imageHash (formData (state r)) = EmptyString
  \/ Js.truthy_opt (account (web3 r)) = false
  \/ contract (web3 r) = None ->
  completion (handleSubmit keccak256 r w m) = Normal tt
  /\ final (handleSubmit keccak256 r w m) = m
  /\ requests (trace (handleSubmit keccak256 r w m)) = []
  /\ (isSubmitting (state r) = true ->
      trace (handleSubmit keccak256 r w m) = [PreventDefault])
  /\ (isSubmitting (state r) = false ->
      trace (handleSubmit keccak256 r w m)
      = [ PreventDefault;
          ToastError
            (if negb (Js.truthy (imageHash (formData (state r)))) then
               "Please upload a certificate file first"
             else if negb (Js.truthy_opt (account (web3 r))) then
               "Please connect your wallet first"
             else "Contract not initialized") ]).
Proof.
  intros H.
  destruct (isSubmitting (state r)) eqn:Hs.
  - rewrite (run_in_flight keccak256 r w m Hs). cbn.
    repeat split. intros; discriminate.
  - assert (Hrun :
      handleSubmit keccak256 r w m
      = (Normal tt, m,
         [ PreventDefault;
           ToastError
             (if negb (Js.truthy (imageHash (formData (state r)))) then
                "Please upload a certificate file first"
              else if negb (Js.truthy_opt (account (web3 r))) then
                "Please connect your wallet first"
              else "Contract not initialized") ])).
    { unfold_handlers. rewrite Hs. destruct m as [s rs].
      destruct (imageHash (formData (state r))) as [|ch0 hash0] eqn:Hh.
      - reflexivity.
      - cbn [Js.truthy negb].
        destruct (account (web3 r)) as [[|ch a']|] eqn:Hacc;
          cbn [Js.truthy_opt Js.truthy negb]; try reflexivity.
        destruct (contract (web3 r)) eqn:Hc; [|reflexivity].
        destruct H as [H | [H | H]]; discriminate H. }
    rewrite Hrun. cbn. repeat split. intros; discriminate.
Qed.

Lemma blocked_submission_issues_no_call_witness :
  let r := {| state := Sample.ready;
              web3 := {| account := None;
                         contract := Some Sample.contract_ok |} |} in
  let run := handleSubmit Sample.keccak256 r Sample.world_ok
               (Sample.machine Sample.ready) in
  Js.truthy_opt (account (web3 r)) = false
  /\ completion run = Normal tt
  /\ final run = Sample.machine Sample.ready
  /\ requests (trace run) = []
  /\ trace run = [PreventDefault; ToastError "Please connect your wallet first"].
Proof.
  intros r run. split; [reflexivity|].
  destruct (blocked_submission_issues_no_call Sample.keccak256 r
              Sample.world_ok (Sample.machine Sample.ready))
    as (Hc & Hf & Hr & _ & Ht).
  - right. left. reflexivity.
  - split; [exact Hc|]. split; [exact Hf|]. split; [exact Hr|].
    exact (Ht eq_refl).
Defined.

(** ** The in-flight flags *)

(** While a submission is in flight, the flag read by the guard is set. *)
Lemma in_flight_sets_isSubmitting w m :
  isSubmitting (ui (in_flight m)) = true
  /\ isSubmitting (ui (settle w (in_flight m))) = true.
Proof. split; [reflexivity|]. now rewrite settle_isSubmitting. Qed.

(** With no reader pending, awaiting changes nothing, and clearing the
    flags after setting them is clearing them. *)
Lemma settle_in_flight w m :
  readers m = [] -> settle w (in_flight m) = in_flight m.
Proof. intros H. now apply settle_no_readers. Qed.

Lemma flags_cleared_in_flight m : flags_cleared (in_flight m) = flags_cleared m.
Proof. reflexivity. Qed.

Lemma flags_cleared_step m : step (ui (flags_cleared m)) = step (ui m).
Proof. reflexivity. Qed.

Lemma flags_cleared_formData m : formData (ui (flags_cleared m)) = formData (ui m).
Proof. reflexivity. Qed.

Lemma in_flight_step m : step (ui (in_flight m)) = step (ui m).
Proof. reflexivity. Qed.

Lemma in_flight_formData m : formData (ui (in_flight m)) = formData (ui m).
Proof. reflexivity. Qed.

#[local] Hint Rewrite flags_cleared_step flags_cleared_formData
  in_flight_step in_flight_formData : ui_fields.

(** C10, as stated, fails for the runs that return at a guard: the
    [finally] block is not reached, so a second invocation made while a
    submission is in flight ends with the three flags still set. *)
Lemma guard_return_keeps_flags :
  let run := handleSubmit Sample.keccak256
               (Sample.render Sample.busy Sample.contract_ok)
               Sample.world_ok (Sample.machine Sample.busy) in
  completion run = Normal tt
  /\ isSubmitting (ui (final run)) = true
  /\ uploading (ui (final run)) = true
  /\ isBlockchainUploading (ui (final run)) = true.
Proof. repeat split. Qed.

(** C10, amended.  Every run of [handleSubmit] that passes its guards (no
    submission in flight, file hash present, account connected, contract
    available) completes normally, whether the submission succeeds or a step
    fails, with [isSubmitting], [uploading] and [isBlockchainUploading] all
    cleared; a run that returns at a guard leaves the component, and so the
    flags, as they were. *)
Theorem submission_clears_flags keccak256 r w m :
  (isSubmitting (state r) = false ->
   preconditions r = true ->
   completion (handleSubmit keccak256 r w m) = Normal tt
   /\ isSubmitting (ui (final (handleSubmit keccak256 r w m))) = false
   /\ uploading (ui (final (handleSubmit keccak256 r w m))) = false
   /\ isBlockchainUploading (ui (final (handleSubmit keccak256 r w m))) = false)
  /\ (isSubmitting (state r) = true \/ preconditions r = false ->
      completion (handleSubmit keccak256 r w m) = Normal tt
      /\ final (handleSubmit keccak256 r w m) = m).
Proof.
  split.
  - intros Hs Hp. submit_cases keccak256 r w m;
      try discriminate; repeat split.
  - intros H. submit_cases keccak256 r w m;
      try (repeat split; fail); destruct H; discriminate.
Qed.

Lemma submission_clears_flags_witness :
  let r := Sample.render Sample.ready Sample.contract_dropping in
  let run := handleSubmit Sample.keccak256 r Sample.world_ok
               (Sample.machine Sample.ready) in
  isSubmitting (state r) = false
  /\ preconditions r = true
  /\ completion run = Normal tt
  /\ isSubmitting (ui (final run)) = false
  /\ uploading (ui (final run)) = false
  /\ isBlockchainUploading (ui (final run)) = false.
Proof.
  split; [reflexivity|]. split; [reflexivity|].
  apply (submission_clears_flags Sample.keccak256
           (Sample.render Sample.ready Sample.contract_dropping)
           Sample.world_ok (Sample.machine Sample.ready));
    reflexivity.
Defined.

(** ** Failure of a step *)

(** C3, as stated, fails in one respect: the error shown does not name the
    step.  A contract call that is rejected and a confirmation wait that
    fails with the same message show the same two error notifications. *)
Lemma transaction_errors_do_not_name_step :
  let rejected := handleSubmit Sample.keccak256
                    (Sample.render Sample.ready Sample.contract_rejecting)
                    Sample.world_ok (Sample.machine Sample.ready) in
  let dropped := handleSubmit Sample.keccak256
                   (Sample.render Sample.ready Sample.contract_dropping)
                   Sample.world_ok (Sample.machine Sample.ready) in
  called_steps (trace rejected) = steps_through ContractCall
  /\ called_steps (trace dropped) = steps_through ConfirmationWait
  /\ error_toasts (trace rejected) = error_toasts (trace dropped)
  /\ error_toasts (trace dropped)
     = [ "Failed to issue credential: user rejected transaction";
         "Transaction failed" ].
Proof. repeat split. Qed.

(** C3, amended.  When a step of a submission fails (the metadata upload,
    the contract call or the confirmation wait), the remaining steps are
    not started, the user is shown two error notifications, the error's
    message after a fixed prefix, from the catch block, and then, from the
    reaction of [toast.promise], the text given for the failing step (the
    same text for the contract call and for the confirmation wait), and the
    component is left as before the submission:
    [step] and [formData] are unchanged and the three in-flight flags are
    cleared; when no file reader is pending, the live component is exactly
    the earlier one with the three flags cleared. *)
Theorem failed_step_aborts_submission keccak256 r w m a c k e :
  isSubmitting (state r) = false ->
  Js.truthy (imageHash (formData (state r))) = true ->
  account (web3 r) = Some a ->
  Js.truthy a = true ->
  contract (web3 r) = Some c ->
  first_failure keccak256 w (formData (state r)) a c = Some (k, e) ->
  let run := handleSubmit keccak256 r w m in
  completion run = Normal tt
  /\ called_steps (trace run) = steps_through k
  /\ error_toasts (trace run)
     = [ ("Failed to issue credential: " ++ Js.message e)%string;
         step_error_text k ]
  /\ step (ui (final run)) = step (ui m)
  /\ formData (ui (final run)) = formData (ui m)
  /\ isSubmitting (ui (final run)) = false
  /\ uploading (ui (final run)) = false
  /\ isBlockchainUploading (ui (final run)) = false
  /\ (readers m = [] -> final run = flags_cleared m).
Proof.
  intros Hs Hf Hacc Ha Hc Hfail run. subst run.
  unfold first_failure in Hfail.
  destruct (ipfs_uploadJSON w _) as [e1|h] eqn:Hup.
  - injection Hfail as <- <-.
    rewrite (run_metadata_upload_fails keccak256 r w m a c Hs Hf Hacc Ha Hc e1 Hup).
    unfold completion, final, trace; cbn [fst snd].
    autorewrite with ui_fields. repeat split.
    intros Hr. now rewrite !settle_in_flight.
  - destruct (issueCredential c _ _ _ _ _) as [e2|tx] eqn:Htx.
    + injection Hfail as <- <-.
      rewrite (run_contract_call_fails keccak256 r w m a c Hs Hf Hacc Ha Hc
                 h e2 Hup Htx).
      unfold completion, final, trace; cbn [fst snd].
      autorewrite with ui_fields. repeat split.
    intros Hr. now rewrite !settle_in_flight.
    + destruct (wait tx) as [e3|n] eqn:Hw; [|discriminate Hfail].
      injection Hfail as <- <-.
      rewrite (run_confirmation_fails keccak256 r w m a c Hs Hf Hacc Ha Hc
                 h tx e3 Hup Htx Hw).
      unfold completion, final, trace; cbn [fst snd].
      autorewrite with ui_fields. repeat split.
    intros Hr. now rewrite !settle_in_flight.
Qed.

Lemma failed_step_aborts_submission_witness :
  let r := Sample.render Sample.ready Sample.contract_dropping in
  let run := handleSubmit Sample.keccak256 r Sample.world_ok
               (Sample.machine Sample.ready) in
  first_failure Sample.keccak256 Sample.world_ok (formData (state r))
    "0x155UER" Sample.contract_dropping
  = Some (ConfirmationWait, Sample.failure)
  /\ completion run = Normal tt
  /\ called_steps (trace run) = steps_through ConfirmationWait
  /\ error_toasts (trace run)
     = [ ("Failed to issue credential: " ++ Js.message Sample.failure)%string;
         step_error_text ConfirmationWait ]
  /\ step (ui (final run)) = 1
  /\ formData (ui (final run)) = Sample.form
  /\ isSubmitting (ui (final run)) = false
  /\ uploading (ui (final run)) = false
  /\ isBlockchainUploading (ui (final run)) = false
  /\ (readers (Sample.machine Sample.ready) = [] ->
      final run = flags_cleared (Sample.machine Sample.ready)).
Proof.
  split; [reflexivity|].
  apply (failed_step_aborts_submission Sample.keccak256
           (Sample.render Sample.ready Sample.contract_dropping)
           Sample.world_ok (Sample.machine Sample.ready)
           "0x155UER" Sample.contract_dropping
           ConfirmationWait Sample.failure);
    reflexivity.
Defined.

(** ** The submission sequence *)

(** C5.  A submission that passes the preconditions starts its steps in
    the order metadata upload, contract call, confirmation wait, stopping
    after the first that fails.  When they all resolve it performs exactly
    this sequence: the metadata document is built, with the name, the
    address, the type and the institution of the form, the account as
    issuer, the file hash and URL of the form and the time of the clock, and
    uploaded to storage, which answers the storage metadata hash; the
    contract's [issueCredential] is called with, in this order, the subject
    address, the local hash of the serialized metadata, the file hash and
    the storage metadata hash (sent from the account); the confirmation of
    the transaction it returns is awaited; and then the component moves to
    the success view, [step] 2. *)
Theorem submission_sequence keccak256 r w m a c :
  isSubmitting (state r) = false ->
  Js.truthy (imageHash (formData (state r))) = true ->
  account (web3 r) = Some a ->
  Js.truthy a = true ->
  contract (web3 r) = Some c ->
  let fd := formData (state r) in
  let metadata :=
    {| Metadata.studentName := studentName fd;
       Metadata.studentAddress := studentAddress fd;
       Metadata.credentialType := credentialType fd;
       Metadata.institution := institution fd;
       Metadata.issuerAddress := a;
       Metadata.imageHash := imageHash fd;
       Metadata.imageUrl := imageUrl fd;
       Metadata.issueDate := now w |} in
  let local_hash := keccak256 (Js.toUtf8Bytes (Metadata.stringify metadata)) in
  let run := handleSubmit keccak256 r w m in
  (exists k, called_steps (trace run) = steps_through k)
  /\ forall h tx n,
       let issue :=
         IssueCredential (studentAddress fd) local_hash (imageHash fd) h a in
       ipfs_uploadJSON w metadata = inr h ->
       issueCredential c (studentAddress fd) local_hash (imageHash fd) h a
       = inr tx ->
       wait tx = inr n ->
       completion run = Normal tt
       /\ trace run
          = [ PreventDefault;
              Called (UploadJSON metadata);
              ToastLoading "Uploading metadata...";
              Resolved (UploadJSON metadata) (JSONStored h);
              ToastSuccess "Metadata uploaded successfully";
              Called issue;
              ToastLoading "Confirming transaction...";
              Resolved issue (TxSent (txHash tx));
              ToastSuccess "Transaction sent successfully";
              Called (TxWait (txHash tx));
              ToastLoading "Waiting for blockchain confirmation...";
              Resolved (TxWait (txHash tx)) (TxConfirmed n);
              ToastSuccess "Credential issued successfully!" ]
       /\ requests (trace run) = [UploadJSON metadata; issue; TxWait (txHash tx)]
       /\ step (ui (final run)) = 2.
Proof.
  intros Hs Hf Hacc Ha Hc fd metadata local_hash run.
  subst run local_hash metadata fd. split.
  - destruct (ipfs_uploadJSON w (build_metadata (formData (state r)) a (now w)))
      as [e1|h] eqn:Hup.
    + exists MetadataUpload.
      now rewrite (run_metadata_upload_fails keccak256 r w m a c
                     Hs Hf Hacc Ha Hc e1 Hup).
    + destruct (issueCredential c (studentAddress (formData (state r)))
                  (certificateHash keccak256
                     (build_metadata (formData (state r)) a (now w)))
                  (imageHash (formData (state r))) h a) as [e2|tx] eqn:Htx.
      * exists ContractCall.
        now rewrite (run_contract_call_fails keccak256 r w m a c
                       Hs Hf Hacc Ha Hc h e2 Hup Htx).
      * exists ConfirmationWait.
        destruct (wait tx) as [e3|n] eqn:Hw.
        -- now rewrite (run_confirmation_fails keccak256 r w m a c
                          Hs Hf Hacc Ha Hc h tx e3 Hup Htx Hw).
        -- now rewrite (run_confirmed keccak256 r w m a c
                          Hs Hf Hacc Ha Hc h tx n Hup Htx Hw).
  - intros h tx n issue Hup Htx Hw. subst issue.
    rewrite (run_confirmed keccak256 r w m a c Hs Hf Hacc Ha Hc h tx n Hup Htx Hw).
    repeat split.
Qed.

Lemma submission_sequence_witness :
  let r := Sample.render Sample.ready Sample.contract_ok in
  let run := handleSubmit Sample.keccak256 r Sample.world_ok
               (Sample.machine Sample.ready) in
  let metadata :=
    {| Metadata.studentName := "Alice";
       Metadata.studentAddress := "0xA11CE";
       Metadata.credentialType := "degree";
       Metadata.institution := "Example University";
       Metadata.issuerAddress := "0x155UER";
       Metadata.imageHash := "QmFile";
       Metadata.imageUrl := "https://ipfs.io/ipfs/QmFile";
       Metadata.issueDate := "2024-05-01T10:00:00.000Z" |} in
  let local_hash :=
    Sample.keccak256 (Js.toUtf8Bytes (Metadata.stringify metadata)) in
  let issue := IssueCredential "0xA11CE" local_hash "QmFile" "QmMeta" "0x155UER" in
  completion run = Normal tt
  /\ trace run
     = [ PreventDefault;
         Called (UploadJSON metadata);
         ToastLoading "Uploading metadata...";
         Resolved (UploadJSON metadata) (JSONStored "QmMeta");
         ToastSuccess "Metadata uploaded successfully";
         Called issue;
         ToastLoading "Confirming transaction...";
         Resolved issue (TxSent "0x7a");
         ToastSuccess "Transaction sent successfully";
         Called (TxWait "0x7a");
         ToastLoading "Waiting for blockchain confirmation...";
         Resolved (TxWait "0x7a") (TxConfirmed 12);
         ToastSuccess "Credential issued successfully!" ]
  /\ requests (trace run) = [UploadJSON metadata; issue; TxWait "0x7a"]
  /\ step (ui (final run)) = 2.
Proof.
  apply (proj2 (submission_sequence Sample.keccak256
                  (Sample.render Sample.ready Sample.contract_ok)
                  Sample.world_ok (Sample.machine Sample.ready)
                  "0x155UER" Sample.contract_ok
                  eq_refl eq_refl eq_refl eq_refl eq_refl)
           "QmMeta" Sample.tx_ok 12%N);
    reflexivity.
Defined.

(** ** Order of the uploads and the contract call *)

(** C1.  In every run of [handleSubmit], wherever a call of the contract's
    [issueCredential] occurs in the trace, the file hash read from the form
    is not empty and is the file hash passed to the contract, and the call
    is preceded by a call of [uploadJSON] that has resolved, with the very
    metadata hash that is passed to the contract. *)
Theorem contract_call_only_after_uploads keccak256 r w m pre post
    subject contentHash fileHash metadataHash from :
  trace (handleSubmit keccak256 r w m)
  = pre ++ Called (IssueCredential subject contentHash fileHash metadataHash from)
        :: post ->
  imageHash (formData (state r)) <> EmptyString
  /\ fileHash = imageHash (formData (state r))
  /\ exists metadata,
       In (Called (UploadJSON metadata)) pre
       /\ In (Resolved (UploadJSON metadata) (JSONStored metadataHash)) pre.
Proof.
  submit_cases keccak256 r w m; unfold trace; cbn [snd]; intros H;
    split_trace H;
    injection Hev as <- <- <- <- <-;
    (split; [now apply truthy_nonempty|]);
    (split; [reflexivity|]);
    eexists; split; cbn; eauto 10.
Qed.

Lemma contract_call_only_after_uploads_witness :
  let metadata :=
    build_metadata Sample.form "0x155UER" (now Sample.world_ok) in
  imageHash Sample.form <> EmptyString
  /\ "QmFile" = imageHash Sample.form
  /\ exists metadata',
       In (Called (UploadJSON metadata'))
          [ PreventDefault;
            Called (UploadJSON metadata);
            ToastLoading "Uploading metadata...";
            Resolved (UploadJSON metadata) (JSONStored "QmMeta");
            ToastSuccess "Metadata uploaded successfully" ]
       /\ In (Resolved (UploadJSON metadata') (JSONStored "QmMeta"))
            [ PreventDefault;
              Called (UploadJSON metadata);
              ToastLoading "Uploading metadata...";
              Resolved (UploadJSON metadata) (JSONStored "QmMeta");
              ToastSuccess "Metadata uploaded successfully" ].
Proof.
  intros metadata.
  apply (contract_call_only_after_uploads Sample.keccak256
           (Sample.render Sample.ready Sample.contract_rejecting)
           Sample.world_ok (Sample.machine Sample.ready)
           [ PreventDefault;
             Called (UploadJSON metadata);
             ToastLoading "Uploading metadata...";
             Resolved (UploadJSON metadata) (JSONStored "QmMeta");
             ToastSuccess "Metadata uploaded successfully" ]
           [ ToastLoading "Confirming transaction...";
             Rejected
               (IssueCredential "0xA11CE"
                  (certificateHash Sample.keccak256 metadata)
                  "QmFile" "QmMeta" "0x155UER")
               Sample.failure;
             ConsoleError "Error uploading credential:" Sample.failure;
             ToastError "Failed to issue credential: user rejected transaction";
             ToastError "Transaction failed" ]
           "0xA11CE" (certificateHash Sample.keccak256 metadata)
           "QmFile" "QmMeta" "0x155UER").
  reflexivity.
Defined.

(** ** The certificate hash *)

(** The content hash handed to the contract is the hash of the metadata
    document that the same run uploads. *)
Lemma contract_call_carries_certificateHash keccak256 r w m metadata
    subject contentHash fileHash metadataHash from :
  In (Called (UploadJSON metadata)) (trace (handleSubmit keccak256 r w m)) ->
  In (Called (IssueCredential subject contentHash fileHash metadataHash from))
     (trace (handleSubmit keccak256 r w m)) ->
  contentHash = keccak256 (Js.toUtf8Bytes (Metadata.stringify metadata)).
Proof.
  submit_cases keccak256 r w m; unfold trace; cbn [snd In]; intros Hu Hi;
    repeat match goal with
      | H : _ \/ _ |- _ => destruct H as [H|H]
      | H : False |- _ => destruct H
      | H : _ = _ |- _ => discriminate H
      end;
    repeat match goal with
      | H : Called _ = Called _ |- _ => injection H; clear H; intros; subst
      end;
    reflexivity.
Qed.

(** C6.  The locally computed certificate hash is a function of the
    metadata document alone: two runs of [handleSubmit] that upload the same
    metadata document, whatever their world, their clock, their render and
    their live component, hand the identical content hash to the contract,
    the keccak256 of the UTF-8 bytes of the document's JSON serialization. *)
Theorem certificateHash_deterministic keccak256 metadata
    r1 w1 m1 subject1 contentHash1 fileHash1 metadataHash1 from1
    r2 w2 m2 subject2 contentHash2 fileHash2 metadataHash2 from2 :
  In (Called (UploadJSON metadata)) (trace (handleSubmit keccak256 r1 w1 m1)) ->
  In (Called (IssueCredential subject1 contentHash1 fileHash1 metadataHash1 from1))
     (trace (handleSubmit keccak256 r1 w1 m1)) ->
  In (Called (UploadJSON metadata)) (trace (handleSubmit keccak256 r2 w2 m2)) ->
  In (Called (IssueCredential subject2 contentHash2 fileHash2 metadataHash2 from2))
     (trace (handleSubmit keccak256 r2 w2 m2)) ->
  contentHash1 = contentHash2
  /\ contentHash1 = keccak256 (Js.toUtf8Bytes (Metadata.stringify metadata)).
Proof.
  intros Hu1 Hi1 Hu2 Hi2.
  rewrite (contract_call_carries_certificateHash _ _ _ _ _ _ _ _ _ _ Hu1 Hi1).
  rewrite (contract_call_carries_certificateHash _ _ _ _ _ _ _ _ _ _ Hu2 Hi2).
  split; reflexivity.
Qed.

Lemma certificateHash_deterministic_witness :
  let metadata := build_metadata Sample.form "0x155UER" "2024-05-01T10:00:00.000Z" in
  certificateHash Sample.keccak256 metadata
  = certificateHash Sample.keccak256 metadata
  /\ certificateHash Sample.keccak256 metadata
     = Sample.keccak256 (Js.toUtf8Bytes (Metadata.stringify metadata)).
Proof.
  intros metadata.
  apply (certificateHash_deterministic Sample.keccak256 metadata
           (Sample.render Sample.ready Sample.contract_ok)
           Sample.world_ok (Sample.machine Sample.ready)
           "0xA11CE" (certificateHash Sample.keccak256 metadata)
           "QmFile" "QmMeta" "0x155UER"
           (Sample.render Sample.ready Sample.contract_dropping)
           Sample.world_other
           {| ui := Sample.ready; readers := [Sample.big_png] |}
           "0xA11CE" (certificateHash Sample.keccak256 metadata)
           "QmFile" "QmOtherMeta" "0x155UER");
    cbn; tauto.
Defined.

(** ** The file-change handler *)

(** C7.  A selected file whose MIME type is not one of [validTypes] (JPEG,
    PNG, GIF, PDF, DOCX) is rejected with an alert and nothing else happens:
    no reader and no storage upload is started and the live component, the
    form included, is left as it was. *)
Theorem invalid_type_rejected_before_upload file rest w m :
  Js.includes validTypes (File.type file) = false ->
  handleFileChange (file :: rest) w m
  = (Normal tt, m,
     [Alert "Please upload an image (JPEG, PNG, GIF), PDF, or DOCX file"]).
Proof.
  intros H. unfold_handlers. cbn [nth_error]. rewrite H. cbn.
  destruct m. reflexivity.
Qed.

Lemma invalid_type_rejected_before_upload_witness :
  Js.includes validTypes (File.type Sample.text_file) = false
  /\ handleFileChange [Sample.text_file] Sample.world_ok
       (Sample.machine Sample.ready)
     = (Normal tt, Sample.machine Sample.ready,
        [Alert "Please upload an image (JPEG, PNG, GIF), PDF, or DOCX file"]).
Proof.
  split; [reflexivity|].
  apply (invalid_type_rejected_before_upload Sample.text_file []
           Sample.world_ok (Sample.machine Sample.ready)).
  reflexivity.
Defined.

(** The size of the file is never read: a file of an accepted type is
    handed to the storage client whatever its size. *)
Lemma accepted_type_is_uploaded file rest w m :
  Js.includes validTypes (File.type file) = true ->
  requests (trace (handleFileChange (file :: rest) w m)) = [UploadImage file].
Proof.
  intros H. unfold_handlers. cbn [nth_error]. rewrite H. run.
  destruct (Js.startsWith (File.type file) "image/"); run;
    destruct (ipfs_uploadImage w file); reflexivity.
Qed.

(** C8.  The handler has no size check: a PNG of 11 MiB, above the 10MB
    announced next to the file input, is sent to the storage client, and
    when the upload resolves its hash is stored in the form. *)
Theorem oversized_file_is_uploaded :
  (10 * 1024 * 1024 < File.size Sample.big_png)%N
  /\ (forall w m,
        requests (trace (handleFileChange [Sample.big_png] w m))
        = [UploadImage Sample.big_png])
  /\ imageHash
       (formData
          (ui (final (handleFileChange [Sample.big_png] Sample.world_ok
                        (Sample.machine Sample.ready)))))
     = "QmNewFile".
Proof.
  split; [reflexivity|]. split; [|reflexivity].
  intros w m. now apply accepted_type_is_uploaded.
Qed.

(** A failed storage upload, field by field. *)
Lemma run_upload_fails file rest w m e :
  Js.includes validTypes (File.type file) = true ->
  ipfs_uploadImage w file = inl e ->
  let run := handleFileChange (file :: rest) w m in
  completion run = Normal tt
  /\ formData (ui (final run)) = formData (ui m)
  /\ imagePreview (ui (final run)) = None
  /\ uploading (ui (final run)) = false
  /\ step (ui (final run)) = step (ui m)
  /\ isSubmitting (ui (final run)) = isSubmitting (ui m)
  /\ isBlockchainUploading (ui (final run)) = isBlockchainUploading (ui m)
  /\ requests (trace run) = [UploadImage file]
  /\ error_toasts (trace run) = [].
Proof.
  intros Hv He run. subst run. unfold_handlers. cbn [nth_error].
  rewrite Hv. run.
  destruct (Js.startsWith (File.type file) "image/"); run;
    rewrite He; run; unfold completion, final, trace; cbn [fst snd ui];
    cbn [formData imagePreview uploading step isSubmitting isBlockchainUploading
         with_uploading with_imagePreview];
    autorewrite with ui_fields; repeat split.
Qed.

(** C9.  When the storage upload of a file-change run fails, the handler
    completes normally with the form untouched: [imageHash] and [imageUrl]
    keep the values they had, the image preview is cleared, [uploading] is
    reset and the other state cells are unchanged (and a reader callback
    that fires late does not touch the form either).  So a submission made
    next, from that state, with a hash left by an earlier upload, gets past
    the file guard and hands that earlier hash to the contract. *)
Theorem failed_upload_keeps_formData file rest w m e :
  Js.includes validTypes (File.type file) = true ->
  ipfs_uploadImage w file = inl e ->
  let run := handleFileChange (file :: rest) w m in
  completion run = Normal tt
  /\ formData (ui (final run)) = formData (ui m)
  /\ formData (ui (late_loadend w (final run))) = formData (ui m)
  /\ imagePreview (ui (final run)) = None
  /\ uploading (ui (final run)) = false
  /\ step (ui (final run)) = step (ui m)
  /\ isSubmitting (ui (final run)) = isSubmitting (ui m)
  /\ isBlockchainUploading (ui (final run)) = isBlockchainUploading (ui m)
  /\ forall keccak256 w' wallet a c h,
       isSubmitting (ui m) = false ->
       imageHash (formData (ui m)) <> EmptyString ->
       account wallet = Some a ->
       Js.truthy a = true ->
       contract wallet = Some c ->
       let fd := formData (ui m) in
       let metadata := build_metadata fd a (now w') in
       ipfs_uploadJSON w' metadata = inr h ->
       In (Called (IssueCredential (studentAddress fd)
                     (certificateHash keccak256 metadata) (imageHash fd) h a))
          (trace (handleSubmit keccak256
                    {| state := ui (final run); web3 := wallet |} w' (final run))).
Proof.
  intros Hv He run.
  destruct (run_upload_fails file rest w m e Hv He)
    as (Hc & Hfd & Hprev & Hupl & Hstep & Hsub & Hbc & _ & _).
  fold run in Hc, Hfd, Hprev, Hupl, Hstep, Hsub, Hbc.
  repeat (split; [assumption || (rewrite late_loadend_formData; assumption)|]).
  intros keccak256 w' wallet a c h Hs Hh Hacc Ha Hcon fd metadata Hup.
  subst fd metadata.
  set (r' := {| state := ui (final run); web3 := wallet |}).
  assert (Hs' : isSubmitting (state r') = false)
    by (unfold r'; cbn [state]; congruence).
  assert (Hf' : Js.truthy (imageHash (formData (state r'))) = true)
    by (unfold r'; cbn [state]; rewrite Hfd; now apply truthy_nonempty).
  assert (Hfd' : formData (state r') = formData (ui m)) by exact Hfd.
  rewrite <- Hfd' in Hup |- *.
  destruct (issueCredential c (studentAddress (formData (state r')))
              (certificateHash keccak256
                 (build_metadata (formData (state r')) a (now w')))
              (imageHash (formData (state r'))) h a) as [e1|tx] eqn:Htx.
  - rewrite (run_contract_call_fails keccak256 r' w' (final run) a c
               Hs' Hf' Hacc Ha Hcon h e1 Hup Htx).
    cbn. auto 10.
  - destruct (wait tx) as [e2|n] eqn:Hw.
    + rewrite (run_confirmation_fails keccak256 r' w' (final run) a c
                 Hs' Hf' Hacc Ha Hcon h tx e2 Hup Htx Hw).
      cbn. auto 10.
    + rewrite (run_confirmed keccak256 r' w' (final run) a c
                 Hs' Hf' Hacc Ha Hcon h tx n Hup Htx Hw).
      cbn. auto 10.
Qed.

Lemma failed_upload_keeps_formData_witness :
  let m := Sample.machine Sample.ready in
  let run := handleFileChange [Sample.big_png] Sample.world_storage_down m in
  Js.includes validTypes (File.type Sample.big_png) = true
  /\ ipfs_uploadImage Sample.world_storage_down Sample.big_png
     = inl {| Js.message := "network error" |}
  /\ formData (ui (final run)) = Sample.form
  /\ imagePreview (ui (final run)) = None
  /\ uploading (ui (final run)) = false
  /\ In (Called (IssueCredential "0xA11CE"
                   (certificateHash Sample.keccak256
                      (build_metadata Sample.form "0x155UER" (now Sample.world_ok)))
                   "QmFile" "QmMeta" "0x155UER"))
        (trace (handleSubmit Sample.keccak256
                  {| state := ui (final run);
                     web3 := Sample.wallet Sample.contract_ok |}
                  Sample.world_ok (final run))).
Proof.
  intros m run.
  split; [reflexivity|]. split; [reflexivity|].
  destruct (failed_upload_keeps_formData Sample.big_png []
              Sample.world_storage_down m {| Js.message := "network error" |}
              eq_refl eq_refl)
    as (_ & Hfd & _ & Hprev & Hupl & _ & _ & _ & Hnext).
  split; [exact Hfd|]. split; [exact Hprev|]. split; [exact Hupl|].
  apply (Hnext Sample.keccak256 Sample.world_ok
           (Sample.wallet Sample.contract_ok) "0x155UER" Sample.contract_ok
           "QmMeta");
    (reflexivity || discriminate).
Defined.

(** The reader of an image that finishes only after the upload has failed
    sets the preview again, once the handler is done; the form is not
    involved. *)
Remark late_reader_sets_preview :
  let m := Sample.machine Sample.ready in
  let after := final (handleFileChange [Sample.big_png]
                        Sample.world_storage_down m) in
  imagePreview (ui after) = None
  /\ readers after = [Sample.big_png]
  /\ imagePreview (ui (late_loadend Sample.world_storage_down after))
     = Some "data:image/png;base64,AAAA"
  /\ formData (ui (late_loadend Sample.world_storage_down after)) = Sample.form.
Proof. repeat split. Qed.

(** ** Runs of [handleFileChange] *)

Lemma run_no_file w m : handleFileChange [] w m = (Normal tt, m, []).
Proof. reflexivity. Qed.

Lemma run_invalid_type file rest w m :
  Js.includes validTypes (File.type file) = false ->
  handleFileChange (file :: rest) w m
  = (Normal tt, m,
     [Alert "Please upload an image (JPEG, PNG, GIF), PDF, or DOCX file"]).
Proof.
  intros H. unfold_handlers. cbn [nth_error]. rewrite H. cbn.
  destruct m. reflexivity.
Qed.

Lemma run_upload_resolves file rest w m res :
  Js.includes validTypes (File.type file) = true ->
  ipfs_uploadImage w file = inr res ->
  handleFileChange (file :: rest) w m
  = (Normal tt,
     {| ui := with_uploading false
                (with_formData (stored res) (ui (settle w (started file m))));
        readers := readers (settle w (started file m)) |},
     start_events file ++ [Resolved (UploadImage file) (ImageStored res)]).
Proof.
  intros Hv Hr. unfold_handlers. unfold started, start_events.
  cbn [nth_error]. rewrite Hv. run.
  destruct (Js.startsWith (File.type file) "image/"); run; rewrite Hr;
    reflexivity.
Qed.

Lemma run_upload_rejects file rest w m e :
  Js.includes validTypes (File.type file) = true ->
  ipfs_uploadImage w file = inl e ->
  handleFileChange (file :: rest) w m
  = (Normal tt,
     {| ui := with_uploading false
                (with_imagePreview None (ui (settle w (started file m))));
        readers := readers (settle w (started file m)) |},
     start_events file
     ++ [Rejected (UploadImage file) e; ConsoleError "File upload failed:" e]).
Proof.
  intros Hv Hr. unfold_handlers. unfold started, start_events.
  cbn [nth_error]. rewrite Hv. run.
  destruct (Js.startsWith (File.type file) "image/"); run; rewrite Hr;
    reflexivity.
Qed.

Lemma started_fields file m :
  step (ui (started file m)) = step (ui m)
  /\ formData (ui (started file m)) = formData (ui m)
  /\ isBlockchainUploading (ui (started file m)) = isBlockchainUploading (ui m)
  /\ isSubmitting (ui (started file m)) = isSubmitting (ui m).
Proof.
  unfold started. destruct (Js.startsWith _ _); repeat split.
Qed.

Lemma started_step file m : step (ui (started file m)) = step (ui m).
Proof. apply started_fields. Qed.
Lemma started_formData file m : formData (ui (started file m)) = formData (ui m).
Proof. apply started_fields. Qed.
Lemma started_isBlockchainUploading file m :
  isBlockchainUploading (ui (started file m)) = isBlockchainUploading (ui m).
Proof. apply started_fields. Qed.
Lemma started_isSubmitting file m :
  isSubmitting (ui (started file m)) = isSubmitting (ui m).
Proof. apply started_fields. Qed.

#[local] Hint Rewrite started_step started_formData
  started_isBlockchainUploading started_isSubmitting : ui_fields.

(** Every run of [handleFileChange] is one of the four runs above. *)
Ltac file_cases files w m :=
  let file := fresh "file" in
  let rest := fresh "rest" in
  let Hv := fresh "Hv" in
  let Hr := fresh "Hr" in
  let res := fresh "res" in
  let e := fresh "e" in
  destruct files as [|file rest];
  [ rewrite (run_no_file w m)
  | destruct (Js.includes validTypes (File.type file)) eqn:Hv;
    [ destruct (ipfs_uploadImage w file) as [e|res] eqn:Hr;
      [ rewrite (run_upload_rejects file rest w m e Hv Hr)
      | rewrite (run_upload_resolves file rest w m res Hv Hr) ]
    | rewrite (run_invalid_type file rest w m Hv) ] ].

Lemma requests_start_events file tl :
  requests (start_events file ++ tl) = UploadImage file :: requests tl.
Proof. unfold start_events. destruct (Js.startsWith _ _); reflexivity. Qed.

Lemma notifications_start_events file tl :
  notifications (start_events file ++ tl) = notifications tl.
Proof. unfold start_events. destruct (Js.startsWith _ _); reflexivity. Qed.

(** The file-change handler starts no step of a submission and sends the
    contract nothing. *)
Lemma file_change_calls_no_step files w m :
  called_steps (trace (handleFileChange files w m)) = []
  /\ filter is_contract_call (trace (handleFileChange files w m)) = [].
Proof.
  file_cases files w m; unfold trace; cbn [snd]; unfold start_events;
    try destruct (Js.startsWith _ _); split; reflexivity.
Qed.

(** X1.  When the upload of an accepted file resolves, the handler
    completes normally and the form holds the storage client's answer: the
    file hash and the URL are replaced by the answer's, the four text fields
    are kept, [uploading] is reset, the other state cells are unchanged, one
    request was sent and the user was notified of nothing. *)
Theorem upload_stores_storage_answer file rest w m res :
  Js.includes validTypes (File.type file) = true ->
  ipfs_uploadImage w file = inr res ->
  let run := handleFileChange (file :: rest) w m in
  completion run = Normal tt
  /\ imageHash (formData (ui (final run))) = hash res
  /\ imageUrl (formData (ui (final run))) = url res
  /\ studentAddress (formData (ui (final run))) = studentAddress (formData (ui m))
  /\ studentName (formData (ui (final run))) = studentName (formData (ui m))
  /\ credentialType (formData (ui (final run))) = credentialType (formData (ui m))
  /\ institution (formData (ui (final run))) = institution (formData (ui m))
  /\ uploading (ui (final run)) = false
  /\ step (ui (final run)) = step (ui m)
  /\ isSubmitting (ui (final run)) = isSubmitting (ui m)
  /\ isBlockchainUploading (ui (final run)) = isBlockchainUploading (ui m)
  /\ requests (trace run) = [UploadImage file]
  /\ notifications (trace run) = [].
Proof.
  intros Hv Hr run. subst run.
  rewrite (run_upload_resolves file rest w m res Hv Hr).
  unfold completion, final, trace; cbn [fst snd ui].
  rewrite requests_start_events, notifications_start_events.
  cbn [formData imageHash imageUrl studentAddress studentName credentialType
       institution uploading step isSubmitting isBlockchainUploading
       with_uploading with_formData stored requests notifications].
  autorewrite with ui_fields. repeat split.
Qed.

Lemma upload_stores_storage_answer_witness :
  let run := handleFileChange [Sample.big_png] Sample.world_ok
               (Sample.machine Sample.ready) in
  formData (ui (final run))
  = {| studentAddress := "0xA11CE"; studentName := "Alice";
       credentialType := "degree"; institution := "Example University";
       imageHash := "QmNewFile";
       imageUrl := "https://ipfs.io/ipfs/QmNewFile" |}
  /\ imageHash (formData (ui (final run))) = "QmNewFile"
  /\ requests (trace run) = [UploadImage Sample.big_png].
Proof.
  intros run.
  destruct (upload_stores_storage_answer Sample.big_png [] Sample.world_ok
              (Sample.machine Sample.ready)
              {| hash := "QmNewFile"; url := "https://ipfs.io/ipfs/QmNewFile" |}
              eq_refl eq_refl)
    as (_ & Hh & _ & _ & _ & _ & _ & _ & _ & _ & _ & Hreq & _).
  split; [reflexivity|]. split; [exact Hh | exact Hreq].
Defined.

(** X2.  After the upload of an accepted file has resolved on a component
    with no reader pending: for a file that is not an image (a PDF, a DOCX)
    the preview is empty, so the form panel shows no preview and no remove
    button although the form holds the file's hash; for an image, once its
    reader has ended, before the upload settled or after, the preview is
    what the reader read. *)
Theorem preview_follows_file_kind file rest w m res :
  Js.includes validTypes (File.type file) = true ->
  ipfs_uploadImage w file = inr res ->
  readers m = [] ->
  let after := final (handleFileChange (file :: rest) w m) in
  (Js.startsWith (File.type file) "image/" = false ->
   imagePreview (ui after) = None
   /\ readers after = []
   /\ imageHash (formData (ui after)) = hash res
   /\ forall panel, form_panel (view (ui after)) = Some panel ->
        preview panel = None)
  /\ (Js.startsWith (File.type file) "image/" = true ->
      imagePreview (ui (late_loadend w after)) = reader_result w file
      /\ readers (late_loadend w after) = []).
Proof.
  intros Hv Hr Hnone after. subst after.
  rewrite (run_upload_resolves file rest w m res Hv Hr).
  unfold final; cbn [fst snd]. unfold started.
  split; intros Hkind; rewrite Hkind.
  - rewrite settle_no_readers by exact Hnone. cbn.
    repeat split; try assumption.
    intros panel. unfold view. cbn.
    destruct (Nat.eqb (step (ui m)) 1); [|discriminate].
    intros H. injection H as <-. reflexivity.
  - unfold settle, late_loadend, apply_loadends. cbn [ui readers].
    rewrite Hnone. cbn [app filter].
    destruct (reader_ends_first w file); cbn; split; reflexivity.
Qed.

Lemma preview_follows_file_kind_witness :
  let pdf := {| File.name := "degree.pdf"; File.type := "application/pdf";
                File.size := 300000 |} in
  let after := final (handleFileChange [pdf] Sample.world_ok
                        (Sample.machine Sample.ready)) in
  imagePreview (ui after) = None
  /\ readers after = []
  /\ imageHash (formData (ui after)) = "QmNewFile"
  /\ forall panel, form_panel (view (ui after)) = Some panel ->
       preview panel = None.
Proof.
  intros pdf after.
  apply (preview_follows_file_kind pdf [] Sample.world_ok
           (Sample.machine Sample.ready)
           {| hash := "QmNewFile"; url := "https://ipfs.io/ipfs/QmNewFile" |}
           eq_refl eq_refl eq_refl).
  reflexivity.
Defined.

(** X3.  Every run of [handleFileChange] completes normally, sends at most
    one request, to the storage client and for an accepted file only, and
    never a request to the contract.  The one notification it ever gives is
    the alert for a file of a type that is not accepted: a failed upload is
    written to the console and shown to the user by nothing. *)
Theorem file_change_is_quiet files w m :
  let run := handleFileChange files w m in
  completion run = Normal tt
  /\ notifications (trace run)
     = match files with
       | file :: _ =>
           if Js.includes validTypes (File.type file) then []
           else [Alert "Please upload an image (JPEG, PNG, GIF), PDF, or DOCX file"]
       | [] => []
       end
  /\ requests (trace run)
     = match files with
       | file :: _ =>
           if Js.includes validTypes (File.type file) then [UploadImage file]
           else []
       | [] => []
       end
  /\ error_toasts (trace run) = []
  /\ called_steps (trace run) = [].
Proof.
  intros run. subst run.
  file_cases files w m; unfold completion, trace; cbn [fst snd];
    try rewrite requests_start_events;
    try rewrite notifications_start_events;
    try (unfold start_events; destruct (Js.startsWith _ _));
    repeat split.
Qed.

(** ** What a run of [handleSubmit] does to the component *)

Lemma stepped_formData n m : formData (ui (stepped n m)) = formData (ui m).
Proof. reflexivity. Qed.

#[local] Hint Rewrite stepped_formData : ui_fields.

Lemma handleSubmit_effect keccak256 r w m :
  let run := handleSubmit keccak256 r w m in
  completion run = Normal tt
  /\ formData (ui (final run)) = formData (ui m)
  /\ (step (ui (final run)) = step (ui m)
      \/ (step (ui (final run)) = 2 /\ confirmed (trace run)))
  /\ (final run = m
      \/ (isSubmitting (ui (final run)) = false
          /\ uploading (ui (final run)) = false
          /\ isBlockchainUploading (ui (final run)) = false)).
Proof.
  intros run. subst run.
  submit_cases keccak256 r w m; unfold completion, final, trace; cbn [fst snd];
    autorewrite with ui_fields;
    (split; [reflexivity|]); (split; [reflexivity|]);
    (split; [| first [left; reflexivity | right; repeat split]]).
  1-4, 6: left; reflexivity.
  right. split; [reflexivity|].
  unfold confirmed. do 7 eexists. split; cbn; eauto 20.
Qed.

(** What a run of [handleSubmit] sends agrees with the render it closes
    over. *)
Lemma handleSubmit_sends keccak256 r w m :
  let run := handleSubmit keccak256 r w m in
  (forall metadata,
     In (Called (UploadJSON metadata)) (trace run) ->
     exists a,
       account (web3 r) = Some a
       /\ metadata = build_metadata (formData (state r)) a (now w))
  /\ (forall pre post subject contentHash fileHash metadataHash from,
        trace run
        = pre ++ Called (IssueCredential subject contentHash fileHash
                           metadataHash from) :: post ->
        exists metadata,
          In (Called (UploadJSON metadata)) pre
          /\ In (Resolved (UploadJSON metadata) (JSONStored metadataHash)) pre
          /\ subject = studentAddress (formData (state r))
          /\ contentHash = certificateHash keccak256 metadata
          /\ fileHash = imageHash (formData (state r))
          /\ fileHash <> EmptyString
          /\ account (web3 r) = Some from).
Proof.
  intros run. subst run. split.
  - intros metadata.
    submit_cases keccak256 r w m; unfold trace; cbn [snd In]; intros Hin;
      repeat match goal with
        | H : _ \/ _ |- _ => destruct H as [H|H]
        | H : False |- _ => destruct H
        | H : _ = _ |- _ => discriminate H
        end;
      match goal with
      | H : Called _ = Called _ |- _ => injection H as <-
      end;
      eexists; (split; [eassumption | reflexivity]).
  - intros pre post subject contentHash fileHash metadataHash from.
    submit_cases keccak256 r w m; unfold trace; cbn [snd]; intros H;
      split_trace H;
      injection Hev as <- <- <- <- <-;
      eexists; (split; [cbn; eauto 10|]);
      (split; [cbn; eauto 10|]);
      repeat split; try assumption; now apply truthy_nonempty.
Qed.

(** X4.  In every run of [handleSubmit], the metadata document uploaded to
    storage and the arguments of the contract call agree: the subject
    address, the file hash and the sender of the call are the student
    address, the image hash and the issuer address of the document, the
    content hash is the hash of the document's serialization, the last
    argument is the hash that storage answered for this document, and the
    document carries the time and the image URL of the submission. *)
Theorem metadata_agrees_with_contract_call keccak256 r w m metadata
    subject contentHash fileHash metadataHash from :
  In (Called (UploadJSON metadata)) (trace (handleSubmit keccak256 r w m)) ->
  In (Called (IssueCredential subject contentHash fileHash metadataHash from))
     (trace (handleSubmit keccak256 r w m)) ->
  subject = Metadata.studentAddress metadata
  /\ fileHash = Metadata.imageHash metadata
  /\ from = Metadata.issuerAddress metadata
  /\ contentHash = keccak256 (Js.toUtf8Bytes (Metadata.stringify metadata))
  /\ In (Resolved (UploadJSON metadata) (JSONStored metadataHash))
        (trace (handleSubmit keccak256 r w m))
  /\ Metadata.issueDate metadata = now w
  /\ Metadata.imageUrl metadata = imageUrl (formData (state r))
  /\ Metadata.studentName metadata = studentName (formData (state r))
  /\ Metadata.credentialType metadata = credentialType (formData (state r))
  /\ Metadata.institution metadata = institution (formData (state r)).
Proof.
  intros Hup Hcall.
  destruct (handleSubmit_sends keccak256 r w m) as [Hdoc Hargs].
  destruct (Hdoc metadata Hup) as (a & Hacc & ->).
  apply in_split in Hcall. destruct Hcall as (pre & post & Hsplit).
  destruct (Hargs pre post _ _ _ _ _ Hsplit)
    as (metadata' & Hup' & Hres & -> & -> & -> & _ & Hacc').
  assert (Hin : In (Called (UploadJSON metadata'))
                   (trace (handleSubmit keccak256 r w m)))
    by (rewrite Hsplit; apply in_or_app; now left).
  destruct (Hdoc metadata' Hin) as (a' & Hacc'' & ->).
  assert (a' = a) by congruence. assert (from = a) by congruence. subst a' from.
  repeat split.
  rewrite Hsplit. apply in_or_app. now left.
Qed.

Lemma metadata_agrees_with_contract_call_witness :
  let metadata := build_metadata Sample.form "0x155UER" (now Sample.world_ok) in
  "0xA11CE" = Metadata.studentAddress metadata
  /\ "QmFile" = Metadata.imageHash metadata
  /\ "0x155UER" = Metadata.issuerAddress metadata.
Proof.
  intros metadata.
  destruct (metadata_agrees_with_contract_call Sample.keccak256
              (Sample.render Sample.ready Sample.contract_ok)
              Sample.world_ok (Sample.machine Sample.ready) metadata
              "0xA11CE" (certificateHash Sample.keccak256 metadata)
              "QmFile" "QmMeta" "0x155UER")
    as (H1 & H2 & H3 & _).
  - cbn. tauto.
  - cbn. tauto.
  - repeat split; assumption.
Defined.

(** ** Gestures, one at a time *)

Lemma from_storage_later history more fd :
  from_storage history fd -> from_storage (history ++ more) fd.
Proof.
  intros [H | (file & res & Hin & Hv & Hh & Hu)]; [now left|].
  right. exists file, res. repeat split; try assumption.
  apply in_or_app. now left.
Qed.

Lemma confirmed_later history more :
  confirmed history -> confirmed (history ++ more).
Proof.
  intros (a & c & f & h & x & tx & n & H1 & H2).
  exists a, c, f, h, x, tx, n. split; apply in_or_app; now left.
Qed.

Lemma confirmed_earlier history more :
  confirmed more -> confirmed (history ++ more).
Proof.
  intros (a & c & f & h & x & tx & n & H1 & H2).
  exists a, c, f, h, x, tx, n. split; apply in_or_app; now right.
Qed.

Lemma late_loadend_fields w m :
  step (ui (late_loadend w m)) = step (ui m)
  /\ uploading (ui (late_loadend w m)) = uploading (ui m)
  /\ formData (ui (late_loadend w m)) = formData (ui m)
  /\ isBlockchainUploading (ui (late_loadend w m)) = isBlockchainUploading (ui m)
  /\ isSubmitting (ui (late_loadend w m)) = isSubmitting (ui m).
Proof. apply apply_loadends_fields. Qed.

Section Gestures.

Variable keccak256 : list byte -> string.
Variables (wallet : Web3) (w : World) (m : Machine).

Lemma perform_completes g :
  completion (perform keccak256 wallet (ui m) g w m) = Normal tt.
Proof.
  destruct g; try reflexivity.
  - cbn [perform]. file_cases files w m; reflexivity.
  - cbn [perform]. apply handleSubmit_effect.
Qed.

Lemma perform_keeps_settled g :
  settled (ui m) ->
  settled (ui (final (perform keccak256 wallet (ui m) g w m))).
Proof.
  intros (Hs & Hu & Hb & Hstep). unfold settled.
  destruct g; cbn [perform].
  1-4, 6: cbn; auto.
  - file_cases files w m; unfold final; cbn [fst snd ui];
      cbn [step uploading isSubmitting isBlockchainUploading
           with_uploading with_formData with_imagePreview];
      autorewrite with ui_fields; auto.
  - destruct (handleSubmit_effect keccak256
                {| state := ui m; web3 := wallet |} w m)
      as (_ & _ & Hst & Hfl).
    repeat split.
    + destruct Hfl as [-> | (H & _)]; assumption.
    + destruct Hfl as [-> | (_ & H & _)]; assumption.
    + destruct Hfl as [-> | (_ & _ & H)]; assumption.
    + destruct Hst as [-> | (-> & _)]; auto.
  - cbn. auto.
  - unfold final; cbn [fst snd].
    destruct (late_loadend_fields w m) as (-> & -> & _ & -> & ->). auto.
Qed.

Lemma perform_keeps_from_storage g history :
  from_storage history (formData (ui m)) ->
  from_storage (history ++ trace (perform keccak256 wallet (ui m) g w m))
    (formData (ui (final (perform keccak256 wallet (ui m) g w m)))).
Proof.
  intros H. destruct g; cbn [perform].
  1-4: apply from_storage_later;
       destruct H as [[H1 H2] | (file & res & Hin & Hv & Hh & Hu)];
       [left; split; assumption | right; exists file, res; auto].
  - file_cases files w m; unfold final, trace; cbn [fst snd ui].
    + now apply from_storage_later.
    + apply from_storage_later. cbn [formData with_uploading with_imagePreview].
      now autorewrite with ui_fields.
    + right. exists file, res. repeat split; try assumption.
      apply in_or_app. right. apply in_or_app. right. now left.
    + now apply from_storage_later.
  - apply from_storage_later. left. split; reflexivity.
  - apply from_storage_later.
    destruct (handleSubmit_effect keccak256
                {| state := ui m; web3 := wallet |} w m) as (_ & -> & _).
    exact H.
  - left. split; reflexivity.
  - apply from_storage_later. unfold final; cbn [fst snd].
    destruct (late_loadend_fields w m) as (_ & _ & -> & _). exact H.
Qed.

Lemma perform_keeps_confirmed g history :
  (step (ui m) = 2 -> confirmed history) ->
  step (ui (final (perform keccak256 wallet (ui m) g w m))) = 2 ->
  confirmed (history ++ trace (perform keccak256 wallet (ui m) g w m)).
Proof.
  intros H. destruct g; cbn [perform].
  1-4, 6: intros Hstep; apply confirmed_later; apply H; exact Hstep.
  - file_cases files w m; unfold final; cbn [fst snd ui];
      cbn [step with_uploading with_formData with_imagePreview];
      autorewrite with ui_fields;
      intros Hstep; apply confirmed_later; apply H; exact Hstep.
  - destruct (handleSubmit_effect keccak256
                {| state := ui m; web3 := wallet |} w m)
      as (_ & _ & [-> | (_ & Hc)] & _).
    + intros Hstep. apply confirmed_later. now apply H.
    + intros _. now apply confirmed_earlier.
  - cbn. discriminate.
  - unfold final; cbn [fst snd].
    destruct (late_loadend_fields w m) as (-> & _).
    intros Hstep. apply confirmed_later. now apply H.
Qed.

Lemma perform_contract_call g pre post
    subject contentHash fileHash metadataHash from :
  trace (perform keccak256 wallet (ui m) g w m)
  = pre ++ Called (IssueCredential subject contentHash fileHash metadataHash from)
        :: post ->
  fileHash = imageHash (formData (ui m)) /\ fileHash <> EmptyString.
Proof.
  destruct g; cbn [perform].
  1-4, 6, 8, 9: cbn; intros H; exfalso; exact (split_nil _ _ _ H).
  - intros H.
    assert (Hc : In ContractCall
                   (called_steps (trace (handleFileChange files w m)))).
    { rewrite H. clear H. induction pre as [|ev pre IH]; cbn.
      - now left.
      - destruct ev; try exact IH.
        destruct (step_of_request req); [right|]; exact IH. }
    destruct (file_change_calls_no_step files w m) as [Hn _].
    rewrite Hn in Hc. destruct Hc.
  - intros H.
    destruct (handleSubmit_sends keccak256
                {| state := ui m; web3 := wallet |} w m) as [_ Hargs].
    destruct (Hargs _ _ _ _ _ _ _ H) as (_ & _ & _ & _ & _ & Hf & Hne & _).
    split; assumption.
Qed.

End Gestures.

(** ** Sessions *)

Lemma session_cons keccak256 mo rest m :
  session keccak256 (mo :: rest) m
  = (fst (session keccak256 rest
            (final (perform keccak256 (wallet mo) (ui m) (gesture mo)
                      (world mo) m))),
     trace (perform keccak256 (wallet mo) (ui m) (gesture mo) (world mo) m)
     ++ snd (session keccak256 rest
               (final (perform keccak256 (wallet mo) (ui m) (gesture mo)
                         (world mo) m)))).
Proof.
  cbn [session]. unfold final, trace.
  destruct (perform keccak256 (wallet mo) (ui m) (gesture mo) (world mo) m)
    as [[c m1] t1].
  cbn [fst snd]. destruct (session keccak256 rest m1). reflexivity.
Qed.

Lemma session_app keccak256 first second m :
  session keccak256 (first ++ second) m
  = (fst (session keccak256 second (fst (session keccak256 first m))),
     snd (session keccak256 first m)
     ++ snd (session keccak256 second (fst (session keccak256 first m)))).
Proof.
  revert m. induction first as [|mo first IH]; intros m.
  - cbn. now destruct (session keccak256 second m).
  - cbn [app]. rewrite !session_cons. cbn [fst snd]. rewrite IH.
    cbn [fst snd]. now rewrite app_assoc.
Qed.

Lemma session_settled keccak256 moments m :
  settled (ui m) -> settled (ui (fst (session keccak256 moments m))).
Proof.
  revert m. induction moments as [|mo rest IH]; intros m H.
  - exact H.
  - rewrite session_cons. cbn [fst]. apply IH. now apply perform_keeps_settled.
Qed.

(** An event of [t ++ l] is in [t] or in [l]. *)
Lemma app_split_at (t l pre post : Trace) (ev : Event) :
  t ++ l = pre ++ ev :: post ->
  (exists post1, t = pre ++ ev :: post1 /\ post = post1 ++ l)
  \/ (exists pre2, pre = t ++ pre2 /\ l = pre2 ++ ev :: post).
Proof.
  revert pre. induction t as [|x t IH]; intros pre H.
  - right. exists pre. auto.
  - destruct pre as [|y pre']; cbn in H; injection H as -> H.
    + left. exists t. auto.
    + destruct (IH pre' H) as [(post1 & -> & ->) | (pre2 & -> & ->)].
      * left. exists post1. auto.
      * right. exists pre2. auto.
Qed.

Lemma session_history keccak256 moments m history :
  from_storage history (formData (ui m)) ->
  (step (ui m) = 2 -> confirmed history) ->
  let after := fst (session keccak256 moments m) in
  let tr := snd (session keccak256 moments m) in
  from_storage (history ++ tr) (formData (ui after))
  /\ (step (ui after) = 2 -> confirmed (history ++ tr))
  /\ forall pre post subject contentHash fileHash metadataHash from,
       tr = pre ++ Called (IssueCredential subject contentHash fileHash
                             metadataHash from) :: post ->
       exists file res,
         In (Resolved (UploadImage file) (ImageStored res)) (history ++ pre)
         /\ Js.includes validTypes (File.type file) = true
         /\ fileHash = hash res.
Proof.
  revert m history. induction moments as [|mo rest IH]; intros m history Hf Hc.
  - cbn. rewrite app_nil_r. repeat split; try assumption.
    intros pre post ? ? ? ? ? H. exfalso. exact (split_nil _ _ _ H).
  - rewrite session_cons. cbn [fst snd].
    set (run := perform keccak256 (wallet mo) (ui m) (gesture mo) (world mo) m).
    pose proof (perform_keeps_from_storage keccak256 (wallet mo) (world mo) m
                  (gesture mo) history Hf) as Hf'.
    pose proof (perform_keeps_confirmed keccak256 (wallet mo) (world mo) m
                  (gesture mo) history Hc) as Hc'.
    fold run in Hf', Hc'.
    destruct (IH (final run) (history ++ trace run) Hf' Hc')
      as (IH1 & IH2 & IH3).
    rewrite !app_assoc. repeat split; try assumption.
    intros pre post subject contentHash fileHash metadataHash from Hsplit.
    destruct (app_split_at _ _ _ _ _ Hsplit)
      as [(post1 & H1 & _) | (pre2 & -> & H2)].
    + destruct (perform_contract_call keccak256 (wallet mo) (world mo) m
                  (gesture mo) pre post1 _ _ _ _ _ H1) as (Hfile & Hne).
      destruct Hf as [[He _] | (file & res & Hin & Hv & Hh & _)].
      * congruence.
      * exists file, res. repeat split; try assumption.
        -- apply in_or_app. now left.
        -- congruence.
    + rewrite app_assoc. now apply IH3 with (1 := H2).
Qed.

Lemma mounted_settled : settled (ui mounted).
Proof. repeat split. now left. Qed.

Lemma mounted_from_storage : from_storage [] (formData (ui mounted)).
Proof. left. split; reflexivity. Qed.

(** X5.  Whatever handlers have run since the component was mounted, for
    whatever gestures, wallet and world, each to its end before the next
    starts: when the last one is done none of the three in-flight flags is
    set and [step] is 1 or 2. *)
Theorem session_never_stuck keccak256 moments :
  let s := ui (fst (session keccak256 moments mounted)) in
  isSubmitting s = false
  /\ uploading s = false
  /\ isBlockchainUploading s = false
  /\ (step s = 1 \/ step s = 2).
Proof.
  intros s.
  exact (session_settled keccak256 moments mounted mounted_settled).
Qed.

(** X6.  The success panel is up only after a confirmed issuance: if it is
    shown at the end of a session started at the mount, then the trace of
    the session holds a contract call that resolved with a transaction and
    the resolved confirmation wait of that transaction. *)
Theorem success_panel_needs_confirmation keccak256 moments :
  success_panel (view (ui (fst (session keccak256 moments mounted)))) = true ->
  confirmed (snd (session keccak256 moments mounted)).
Proof.
  intros H.
  destruct (session_history keccak256 moments mounted []
              mounted_from_storage) as (_ & Hc & _).
  - cbn. discriminate.
  - apply Hc. cbn in H. now apply PeanoNat.Nat.eqb_eq in H.
Qed.

Lemma success_panel_needs_confirmation_witness :
  success_panel
    (view (ui (fst (session Sample.keccak256 Scenario.issuance mounted)))) = true
  /\ confirmed (snd (session Sample.keccak256 Scenario.issuance mounted)).
Proof.
  split; [reflexivity|].
  apply (success_panel_needs_confirmation Sample.keccak256 Scenario.issuance).
  reflexivity.
Defined.

(** X7.  In a session started at the mount, the file hash of every contract
    call is a hash that the storage client answered earlier in the session,
    to the upload of a file of an accepted type: no other value ever reaches
    the contract as the file hash. *)
Theorem issued_file_hash_comes_from_storage keccak256 moments pre post
    subject contentHash fileHash metadataHash from :
  snd (session keccak256 moments mounted)
  = pre ++ Called (IssueCredential subject contentHash fileHash metadataHash from)
        :: post ->
  exists file res,
    In (Resolved (UploadImage file) (ImageStored res)) pre
    /\ Js.includes validTypes (File.type file) = true
    /\ fileHash = hash res.
Proof.
  intros H.
  destruct (session_history keccak256 moments mounted []
              mounted_from_storage) as (_ & _ & Hcall).
  - cbn. discriminate.
  - exact (Hcall _ _ _ _ _ _ _ H).
Qed.

Lemma issued_file_hash_comes_from_storage_witness :
  let tr := snd (session Sample.keccak256 Scenario.issuance mounted) in
  exists file res,
    In (Resolved (UploadImage file) (ImageStored res)) (firstn 8 tr)
    /\ Js.includes validTypes (File.type file) = true
    /\ "QmNewFile" = hash res.
Proof.
  intros tr.
  apply (issued_file_hash_comes_from_storage Sample.keccak256 Scenario.issuance
           (firstn 8 tr) (skipn 9 tr)
           "0xA11CE"
           (certificateHash Sample.keccak256
              (build_metadata
                 {| studentAddress := "0xA11CE"; studentName := "Alice";
                    credentialType := "degree";
                    institution := "Example University";
                    imageHash := "QmNewFile";
                    imageUrl := "https://ipfs.io/ipfs/QmNewFile" |}
                 "0x155UER" (now Sample.world_ok)))
           "QmNewFile" "QmMeta" "0x155UER").
  vm_compute. reflexivity.
Defined.

(** X8.  "Issue Another Certificate" resets the component: at the end of
    any session started at the mount, its handler leaves exactly the
    initial state, with an empty form and no file hash, so nothing of the
    certificate issued before can enter the next one. *)
Theorem issueAnother_resets keccak256 moments w wl :
  let again := {| world := w; wallet := wl; gesture := ClickIssueAnother |} in
  ui (fst (session keccak256 (moments ++ [again]) mounted)) = initialState.
Proof.
  intros again. rewrite session_app. cbn [fst].
  destruct (session_settled keccak256 moments mounted mounted_settled)
    as (Hs & Hu & Hb & _).
  rewrite session_cons. cbn [fst session]. subst again.
  cbn [gesture perform].
  unfold final, onClick_issueAnother, handler, setStep, setFormData,
    setImagePreview, modify, bind. cbn [fst snd ui component].
  unfold initialState, initialFormData, with_imagePreview, with_formData,
    with_step.
  cbn [step uploading imagePreview formData isBlockchainUploading isSubmitting].
  now rewrite Hs, Hu, Hb.
Qed.

(** ** Removing the file, and when a submission starts *)

(** X9.  After the remove button of the preview has been pressed, with no
    submission in flight, the form has no file and no preview but keeps its
    four text fields, and a submission is refused: the handler shows "Please
    upload a certificate file first", sends nothing and leaves the
    component as it is, whatever the wallet. *)
Theorem removePreview_blocks_submission keccak256 wl w w' m :
  isSubmitting (ui m) = false ->
  let m' := final (onClick_removePreview w m) in
  handleSubmit keccak256 {| state := ui m'; web3 := wl |} w' m'
  = (Normal tt, m',
     [PreventDefault; ToastError "Please upload a certificate file first"])
  /\ imageHash (formData (ui m')) = EmptyString
  /\ imageUrl (formData (ui m')) = EmptyString
  /\ imagePreview (ui m') = None
  /\ studentAddress (formData (ui m')) = studentAddress (formData (ui m))
  /\ studentName (formData (ui m')) = studentName (formData (ui m))
  /\ credentialType (formData (ui m')) = credentialType (formData (ui m))
  /\ institution (formData (ui m')) = institution (formData (ui m)).
Proof.
  intros Hs m'. subst m'. split; [|repeat split].
  unfold_handlers. unfold onClick_removePreview, handler, setImagePreview,
    setFormData, modify, bind, final. cbn. rewrite Hs. reflexivity.
Qed.

Lemma removePreview_blocks_submission_witness :
  let m' := final (onClick_removePreview Sample.world_ok
                     (Sample.machine Sample.ready)) in
  isSubmitting (ui (Sample.machine Sample.ready)) = false
  /\ handleSubmit Sample.keccak256
       {| state := ui m'; web3 := Sample.wallet Sample.contract_ok |}
       Sample.world_ok m'
     = (Normal tt, m',
        [PreventDefault; ToastError "Please upload a certificate file first"]).
Proof.
  intros m'. split; [reflexivity|].
  apply (removePreview_blocks_submission Sample.keccak256
           (Sample.wallet Sample.contract_ok) Sample.world_ok Sample.world_ok
           (Sample.machine Sample.ready)).
  reflexivity.
Defined.

Lemma preconditions_spec r :
  preconditions r = true
  <-> imageHash (formData (state r)) <> EmptyString
      /\ Js.truthy_opt (account (web3 r)) = true
      /\ contract (web3 r) <> None.
Proof.
  unfold preconditions. rewrite !andb_true_iff, truthy_nonempty.
  destruct (contract (web3 r)); intuition (try discriminate; try congruence).
Qed.

(** X10.  A run of [handleSubmit] sends a request exactly when no submission
    is in flight, the form holds a file hash, an account is connected and a
    contract client is available; the first request is then the upload of
    the metadata document.  The four text fields are not looked at: with
    any of them empty the submission starts all the same. *)
Theorem submission_starts_iff keccak256 r w m :
  (requests (trace (handleSubmit keccak256 r w m)) <> []
   <-> isSubmitting (state r) = false
       /\ imageHash (formData (state r)) <> EmptyString
       /\ Js.truthy_opt (account (web3 r)) = true
       /\ contract (web3 r) <> None)
  /\ forall req, nth_error (requests (trace (handleSubmit keccak256 r w m))) 0
                 = Some req ->
       exists a, account (web3 r) = Some a
                 /\ req = UploadJSON (build_metadata (formData (state r)) a (now w)).
Proof.
  split.
  - rewrite <- preconditions_spec.
    submit_cases keccak256 r w m; unfold trace; cbn [snd requests]; split.
    all: try (intros _; split; reflexivity).
    all: try (intros _; discriminate).
    all: try (intros H; now contradict H).
    all: intros [H1 H2]; discriminate.
  - intros req.
    submit_cases keccak256 r w m; unfold trace; cbn [snd requests nth_error];
      try discriminate;
      intros H; injection H as <-; eexists; (split; [eassumption|reflexivity]).
Qed.

Lemma submission_starts_iff_witness :
  let r := {| state :=
                {| step := 1; uploading := false; imagePreview := None;
                   formData := stored {| hash := "QmFile"; url := "u" |}
                                 initialFormData;
                   isBlockchainUploading := false; isSubmitting := false |};
              web3 := Sample.wallet Sample.contract_ok |} in
  studentAddress (formData (state r)) = EmptyString
  /\ requests (trace (handleSubmit Sample.keccak256 r Sample.world_ok mounted))
     <> [].
Proof.
  intros r. split; [reflexivity|].
  apply (proj1 (submission_starts_iff Sample.keccak256 r Sample.world_ok mounted)).
  repeat split; discriminate.
Defined.

(** ** What a submission reads *)

(** X11.  What a run of [handleSubmit] shows and sends depends on the render
    it closes over and on the world, not on the live component: started on
    two different live components, the handler of one render leaves the
    same trace and completes the same way. *)
Theorem submit_reads_render_only keccak256 r w m1 m2 :
  trace (handleSubmit keccak256 r w m1) = trace (handleSubmit keccak256 r w m2)
  /\ completion (handleSubmit keccak256 r w m1)
     = completion (handleSubmit keccak256 r w m2).
Proof.
  destruct (isSubmitting (state r)) eqn:Hs.
  - now rewrite !run_in_flight by assumption.
  - destruct (preconditions r) eqn:Hp.
    + destruct (preconditions_true r Hp) as (a & c & Hf & Hacc & Ha & Hc).
      destruct (ipfs_uploadJSON w (build_metadata (formData (state r)) a (now w)))
        as [e|h] eqn:Hup.
      * now rewrite !(run_metadata_upload_fails keccak256 r w _ a c
                        Hs Hf Hacc Ha Hc e Hup).
      * destruct (issueCredential c (studentAddress (formData (state r)))
                    (certificateHash keccak256
                       (build_metadata (formData (state r)) a (now w)))
                    (imageHash (formData (state r))) h a) as [e|tx] eqn:Htx.
        -- now rewrite !(run_contract_call_fails keccak256 r w _ a c
                           Hs Hf Hacc Ha Hc h e Hup Htx).
        -- destruct (wait tx) as [e|n] eqn:Hw.
           ++ now rewrite !(run_confirmation_fails keccak256 r w _ a c
                              Hs Hf Hacc Ha Hc h tx e Hup Htx Hw).
           ++ now rewrite !(run_confirmed keccak256 r w _ a c
                              Hs Hf Hacc Ha Hc h tx n Hup Htx Hw).
    + unfold preconditions in Hp. unfold_handlers. rewrite Hs.
      destruct (Js.truthy (imageHash (formData (state r)))); [|split; reflexivity].
      destruct (account (web3 r)) as [[|ch a']|]; try (split; reflexivity).
      destruct (contract (web3 r)); [discriminate Hp|split; reflexivity].
Qed.

(** ** Editing while a file is picked *)

Lemma apply_loadends_with_formData w f fs s :
  apply_loadends w fs (with_formData f s)
  = with_formData f (apply_loadends w fs s).
Proof.
  unfold apply_loadends. revert s.
  induction fs as [|x fs IH]; intros s; cbn [fold_left]; [reflexivity|].
  rewrite <- IH. reflexivity.
Qed.

Lemma settle_with_formData w f m :
  settle w {| ui := with_formData f (ui m); readers := readers m |}
  = {| ui := with_formData f (ui (settle w m)); readers := readers (settle w m) |}.
Proof.
  unfold settle. cbn [ui readers]. now rewrite apply_loadends_with_formData.
Qed.

Lemma started_with_formData file f m :
  started file {| ui := with_formData f (ui m); readers := readers m |}
  = {| ui := with_formData f (ui (started file m));
       readers := readers (started file m) |}.
Proof. unfold started. destruct (Js.startsWith _ _); reflexivity. Qed.

(** The handler of a text edit replaces one text field of the form and
    does nothing else. *)
Lemma text_edit_run g :
  is_text_edit g = true ->
  exists f,
    (forall res fd, stored res (f fd) = f (stored res fd))
    /\ forall keccak256 wl s w m,
         perform keccak256 wl s g w m
         = (Normal tt,
            {| ui := with_formData f (ui m); readers := readers m |}, []).
Proof.
  destruct g; try discriminate; intros _;
    eexists; (split; [|intros; reflexivity]); intros; reflexivity.
Qed.

(** X12.  An edit of a text field and a file change can be made in either
    order: the component and the trace at the end are the same.  The upload
    keeps the text typed before it and the edit keeps the file hash stored
    before it, since both update the form from its previous value. *)
Theorem text_edit_commutes_with_file_change keccak256 g files
    w1 wl1 w2 wl2 m :
  is_text_edit g = true ->
  let edit := {| world := w1; wallet := wl1; gesture := g |} in
  let pick := {| world := w2; wallet := wl2; gesture := ChangeFile files |} in
  session keccak256 [edit; pick] m = session keccak256 [pick; edit] m.
Proof.
  intros Hg edit pick. subst edit pick.
  destruct (text_edit_run g Hg) as (f & Hcomm & Hrun).
  rewrite !session_cons. cbn [session fst snd world wallet gesture].
  rewrite !app_nil_r. rewrite !Hrun. cbn [perform].
  unfold final at 2 3; unfold trace at 1 4; cbn [fst snd ui readers].
  set (edited := {| ui := with_formData f (ui m); readers := readers m |}).
  pose proof (settle_with_formData w2 f) as Hsettle.
  pose proof (fun file => started_with_formData file f) as Hstart.
  destruct files as [|file rest].
  - rewrite !run_no_file. reflexivity.
  - destruct (Js.includes validTypes (File.type file)) eqn:Hv.
    + destruct (ipfs_uploadImage w2 file) as [e|res] eqn:Hr.
      * rewrite (run_upload_rejects file rest w2 m e Hv Hr),
          (run_upload_rejects file rest w2 edited e Hv Hr).
        unfold final, trace; cbn [fst snd ui readers].
        rewrite app_nil_r. subst edited. rewrite Hstart, Hsettle. reflexivity.
      * rewrite (run_upload_resolves file rest w2 m res Hv Hr),
          (run_upload_resolves file rest w2 edited res Hv Hr).
        unfold final, trace; cbn [fst snd ui readers].
        rewrite app_nil_r. subst edited. rewrite Hstart, Hsettle.
        cbn [ui readers]. unfold with_uploading, with_formData.
        cbn [step uploading imagePreview formData isBlockchainUploading
             isSubmitting].
        now rewrite Hcomm.
    + rewrite !run_invalid_type by assumption. reflexivity.
Qed.

Lemma text_edit_commutes_with_file_change_witness :
  let edit := Scenario.at_ok (ChangeStudentName "Alice") in
  let pick := Scenario.at_ok (ChangeFile [Scenario.pdf]) in
  session Sample.keccak256 [edit; pick] mounted
  = session Sample.keccak256 [pick; edit] mounted.
Proof.
  apply (text_edit_commutes_with_file_change Sample.keccak256
           (ChangeStudentName "Alice") [Scenario.pdf]
           Sample.world_ok (Sample.wallet Sample.contract_ok)
           Sample.world_ok (Sample.wallet Sample.contract_ok) mounted).
  reflexivity.
Defined.

(** ** Role redirection *)

(** X13.  The "Go to Dashboard" link of the unauthorized page and the role
    redirect lead to the same path exactly for a signed-in user whose type
    is the student's or the institute's.  In every other case, no user, or a
    user of another type or of none, the redirect sends to "/signin" while
    the link still points to a dashboard. *)
Theorem dashboard_link_agrees_iff (STUDENT INSTITUTE : string) (User : Type)
    (a : App.Auth User) :
  (App.UnauthorizedPage_link STUDENT User a
   = App.to (App.RoleBasedRedirect STUDENT INSTITUTE User a)
   <-> App.user a <> None
       /\ (App.userType a = Some STUDENT \/ App.userType a = Some INSTITUTE))
  /\ (App.user a = None
      \/ (App.userType a <> Some STUDENT /\ App.userType a <> Some INSTITUTE) ->
      App.to (App.RoleBasedRedirect STUDENT INSTITUTE User a) = "/signin"
      /\ App.UnauthorizedPage_link STUDENT User a <> "/signin").
Proof.
  unfold App.UnauthorizedPage_link, App.RoleBasedRedirect, App.is_type.
  destruct a as [u t]. cbn [App.user App.userType].
  destruct t as [t|]; [|destruct u; cbn [App.to];
                         intuition (try discriminate; try congruence)].
  destruct (String.eqb_spec t STUDENT) as [Hs|Hs];
    destruct (String.eqb_spec t INSTITUTE) as [Hi|Hi];
    destruct u; cbn [App.to];
    intuition (try discriminate; try congruence).
Qed.

Lemma dashboard_link_agrees_iff_witness :
  let a := {| App.user := Some tt; App.userType := Some "admin" |} in
  App.to (App.RoleBasedRedirect "student" "institute" unit a) = "/signin"
  /\ App.UnauthorizedPage_link "student" unit a <> "/signin".
Proof.
  intros a.
  apply (proj2 (dashboard_link_agrees_iff "student" "institute" unit a)).
  right. split; discriminate.
Defined.

(** ** The serialized metadata *)

Lemma string_append_assoc (a b c : string) :
  ((a ++ b) ++ c = a ++ (b ++ c))%string.
Proof. induction a as [|x a IH]; cbn; [reflexivity | now rewrite IH]. Qed.

Lemma unquote_quoteChar c rest :
  Unquote.char (Js.quoteChar c ++ rest)%string = Some (c, rest).
Proof. destruct c as [[] [] [] [] [] [] [] []]; reflexivity. Qed.

(** A quoted body ends at the first quote that is not escaped. *)
Lemma quoteBody_delimited s1 : forall s2 r1 r2,
  (Js.quoteBody s1 ++ String Js.dquote r1
   = Js.quoteBody s2 ++ String Js.dquote r2)%string ->
  s1 = s2 /\ r1 = r2.
Proof.
  induction s1 as [|c1 s1 IH]; intros [|c2 s2] r1 r2 H; cbn [Js.quoteBody] in H.
  - cbn in H. injection H as ->. auto.
  - rewrite string_append_assoc in H. apply (f_equal Unquote.char) in H.
    rewrite unquote_quoteChar in H. discriminate H.
  - rewrite string_append_assoc in H. apply (f_equal Unquote.char) in H.
    rewrite unquote_quoteChar in H. discriminate H.
  - rewrite !string_append_assoc in H. apply (f_equal Unquote.char) in H.
    rewrite !unquote_quoteChar in H. injection H as -> H.
    destruct (IH _ _ _ H) as [-> ->]. auto.
Qed.

Lemma toUtf8Bytes_injective s1 s2 :
  Js.toUtf8Bytes s1 = Js.toUtf8Bytes s2 -> s1 = s2.
Proof.
  unfold Js.toUtf8Bytes. intros H.
  rewrite <- (string_of_list_byte_of_string s1),
    <- (string_of_list_byte_of_string s2).
  now rewrite H.
Qed.

(** X14.  The bytes that [handleSubmit] hashes determine the metadata
    document: two documents whose serializations have the same UTF-8 bytes
    have the same eight fields.  No choice of field values, quotes, commas
    and backslashes included, makes one document serialize as another. *)
Theorem hashed_bytes_determine_metadata m1 m2 :
  Js.toUtf8Bytes (Metadata.stringify m1) = Js.toUtf8Bytes (Metadata.stringify m2) ->
  m1 = m2.
Proof.
  intros H. apply toUtf8Bytes_injective in H. revert H.
  destruct m1, m2.
  unfold Metadata.stringify, Js.stringifyObject, Js.member, Js.quoteJSONString.
  cbn [map fst snd String.concat Metadata.studentName Metadata.studentAddress
       Metadata.credentialType Metadata.institution Metadata.issuerAddress
       Metadata.imageHash Metadata.imageUrl Metadata.issueDate].
  intros H.
  repeat (rewrite !string_append_assoc in H; cbn in H).
  repeat (repeat (injection H as H);
          apply quoteBody_delimited in H; destruct H as [-> H]).
  reflexivity.
Qed.

Lemma hashed_bytes_determine_metadata_witness :
  let honest := build_metadata Sample.form "0x155UER" "2024-05-01" in
  let forged :=
    build_metadata
      {| studentAddress := "0xA11CE";
         studentName :=
           String.append "Alice"
             (String Js.dquote (String.append ",studentAddress"
                (String Js.dquote EmptyString)));
         credentialType := "degree"; institution := "Example University";
         imageHash := "QmFile"; imageUrl := "https://ipfs.io/ipfs/QmFile" |}
      "0x155UER" "2024-05-01" in
  Js.toUtf8Bytes (Metadata.stringify honest)
  <> Js.toUtf8Bytes (Metadata.stringify forged).
Proof.
  intros honest forged H.
  apply (hashed_bytes_determine_metadata honest forged) in H.
  discriminate H.
Defined.

(** ** A reader that ends after a failed upload *)

(** X16.  When the upload of an image fails on a component with no reader
    pending, the form is kept in either case, but what the preview shows in
    the end depends on the reader: if it ended before the upload failed the
    preview stays empty; if it ends only afterwards, the preview is empty
    when the handler is done and then shows what the reader read, the image
    of the file whose upload failed. *)
Theorem late_reader_shows_failed_image file rest w m e :
  Js.includes validTypes (File.type file) = true ->
  Js.startsWith (File.type file) "image/" = true ->
  ipfs_uploadImage w file = inl e ->
  readers m = [] ->
  let after := final (handleFileChange (file :: rest) w m) in
  imagePreview (ui after) = None
  /\ formData (ui (late_loadend w after)) = formData (ui m)
  /\ imagePreview (ui (late_loadend w after))
     = if reader_ends_first w file then None else reader_result w file.
Proof.
  intros Hv Himg Hr Hnone after. subst after.
  rewrite (run_upload_rejects file rest w m e Hv Hr).
  unfold final; cbn [fst snd]. unfold started. rewrite Himg.
  split; [reflexivity|]. split.
  - rewrite late_loadend_formData. cbn [ui formData with_uploading with_imagePreview].
    now autorewrite with ui_fields.
  - unfold settle, late_loadend, apply_loadends. cbn [ui readers].
    rewrite Hnone. cbn [app filter].
    destruct (reader_ends_first w file); reflexivity.
Qed.

Lemma late_reader_shows_failed_image_witness :
  let after := final (handleFileChange [Sample.big_png]
                        Sample.world_storage_down
                        (Sample.machine Sample.ready)) in
  imagePreview (ui after) = None
  /\ formData (ui (late_loadend Sample.world_storage_down after)) = Sample.form
  /\ imagePreview (ui (late_loadend Sample.world_storage_down after))
     = Some "data:image/png;base64,AAAA".
Proof.
  apply (late_reader_shows_failed_image Sample.big_png []
           Sample.world_storage_down (Sample.machine Sample.ready)
           {| Js.message := "network error" |});
    reflexivity.
Defined.
